(** * Chat ID Tracker: a shallow embedding of [open_web_chat_id_pipe.py]

    The filter keeps two dictionaries, [_conversation_store] (digest of the
    first user message -> chat id) and [_active_streams] (session id ->
    stream information).  [inlet] rewrites a request body, [outlet] watches
    response bodies, [handle_stop] forwards a stop request to the backend.

    Bodies are Python values decoded from JSON, so the development starts
    with a small model of those values and of the three Python notions the
    code relies on: truthiness, [dict.get] and hashability.

    What the methods read from outside the filter (the generated uuid, the
    clock, the backend's answer) is passed in; the [__user__] argument,
    which no method looks at, is left out.  Calls are taken one at a time:
    no method yields control while it runs. *)

From Stdlib Require Import ZArith QArith String Ascii DecimalString.
From stdpp Require Import gmap strings list fin_maps.

Local Open Scope Z_scope.
Local Open Scope string_scope.

(** ** Python values decoded from JSON *)

Set Warnings "-register-all".

(** A [str] is modelled by a Rocq string (the text it holds, so that
    [encode] always succeeds on it), an [int] by [Z], and a finite [float]
    by the rational it denotes. *)
Inductive json : Type :=
  | JNull
  | JBool (b : bool)
  | JInt (z : Z)
  | JFloat (q : Q)
  | JStr (s : string)
  | JArr (l : list json)
  | JObj (o : gmap string json).

Abbreviation dict := (gmap string json).

(** [bool(x)] *)
Definition truthy (x : json) : bool :=
  match x with
  | JNull => false
  | JBool b => b
  | JInt z => negb (Z.eqb z 0)
  | JFloat q => negb (Z.eqb (Qnum q) 0)
  | JStr s => negb (String.eqb s "")
  | JArr l => negb (Nat.eqb (List.length l) 0)
  | JObj o => negb (Nat.eqb (size o) 0)
  end.

(** [x == s] for a [str] [s]: only an equal [str] compares equal. *)
Definition py_eq_str (x : json) (s : string) : bool :=
  match x with
  | JStr t => String.eqb t s
  | _ => false
  end.

(** [d.get(k, default)] and [d.get(k)] on a dictionary with string keys. *)
Definition dict_get_default (d : dict) (k : string) (default : json) : json :=
  match d !! k with
  | Some v => v
  | None => default
  end.

Definition dict_get (d : dict) (k : string) : json :=
  dict_get_default d k JNull.

(** ** Exceptions *)

Inductive exn : Type := AttributeError | TypeError | KeyError.

Inductive result (A : Type) : Type :=
  | Ok (a : A)
  | Raise (e : exn).
Arguments Ok {A} a.
Arguments Raise {A} e.

(** [d[k]] *)
Definition dict_getitem (d : dict) (k : string) : result json :=
  match d !! k with
  | Some v => Ok v
  | None => Raise KeyError
  end.

(** [for x in v]: the elements a [for] loop visits, or the [TypeError] of
    a value that is not iterable.  A [str] yields its one-character
    strings and a [dict] its keys. *)
Definition py_iter (v : json) : result (list json) :=
  match v with
  | JArr l => Ok l
  | JStr s => Ok ((λ c, JStr (String c EmptyString)) <$> list_ascii_of_string s)
  | JObj o => Ok (JStr <$> (map_to_list o).*1)
  | JNull | JBool _ | JInt _ | JFloat _ => Raise TypeError
  end.

(** ** Dictionary keys

    [_active_streams] is indexed by whatever [body.get("session_id")]
    holds.  Python hashes the key first: lists and dictionaries are
    unhashable, and numbers that compare equal are one key ([True], [1]
    and [1.0], say), so a numeric key is kept as a fraction in lowest
    terms. *)
Inductive pykey : Type :=
  | KNone
  | KNum (numerator : Z) (denominator : positive)
  | KStr (s : string).

#[global] Instance pykey_eq_dec : EqDecision pykey.
Proof. solve_decision. Defined.

#[global] Instance pykey_countable : Countable pykey.
Proof.
  refine (inj_countable'
    (λ k, match k with
          | KNone => inl tt
          | KNum n d => inr (inl (n, d))
          | KStr s => inr (inr s)
          end)
    (λ x, match x with
          | inl _ => KNone
          | inr (inl (n, d)) => KNum n d
          | inr (inr s) => KStr s
          end) _).
  by intros [].
Defined.

Definition as_key (x : json) : result pykey :=
  match x with
  | JNull => Ok KNone
  | JBool b => Ok (KNum (if b then 1 else 0) 1)
  | JInt z => Ok (KNum z 1)
  | JFloat q => Ok (KNum (Qnum (Qred q)) (Qden (Qred q)))
  | JStr s => Ok (KStr s)
  | JArr _ | JObj _ => Raise TypeError
  end.

(** ** Numbers and clocks *)

(** [time.time()] returns seconds as a float; a reading is modelled by the
    rational it denotes.  [int(t)] truncates towards zero. *)
Definition py_int (t : Q) : Z := Z.quot (Qnum t) (Zpos (Qden t)).

(** [str(n)] for an [int]. *)
Definition py_str_int (n : Z) : string := NilZero.string_of_int (Z.to_int n).

(** ** The filter object *)

Record Valves : Type := {
  priority : Z;
  backend_url : string;
  stop_endpoint : string
}.

(** One value of [_active_streams]: the keys ["chat_id"], ["start_time"]
    and ["active"] are always there, the other three only once set. *)
Record stream_info : Type := {
  chat_id : json;
  start_time : Q;
  active : bool;
  end_time : option Q;
  stopped_by_user : option bool;
  stop_time : option Q
}.

Record Filter : Type := {
  valves : Valves;
  _conversation_store : gmap string string;
  _active_streams : gmap pykey stream_info
}.

Definition Valves_default : Valves :=
  {| priority := 0;
     backend_url := "http://host.docker.internal:8081";
     stop_endpoint := "/stop" |}.

Definition __init__ : Filter :=
  {| valves := Valves_default;
     _conversation_store := ∅;
     _active_streams := ∅ |}.

(** ** Method bodies: state passing with exceptions

    A method runs on the filter and either returns or raises; what it
    wrote to the filter before raising stays written. *)
Definition Py (A : Type) : Type := Filter → Filter * result A.

#[global] Instance Py_ret : MRet Py := λ A a self, (self, Ok a).

#[global] Instance Py_bind : MBind Py := λ A B k m self,
  match m self with
  | (self', Ok a) => k a self'
  | (self', Raise e) => (self', Raise e)
  end.

Definition lift {A} (r : result A) : Py A := λ self, (self, r).

Definition gets {A} (f : Filter → A) : Py A := λ self, (self, Ok (f self)).

(** [self._conversation_store[k] = v] *)
Definition store_conversation (k v : string) : Py unit := λ self,
  ({| valves := valves self;
      _conversation_store := <[k := v]> (_conversation_store self);
      _active_streams := _active_streams self |}, Ok tt).

(** [self._active_streams[k] = info] *)
Definition store_stream (k : pykey) (info : stream_info) : Py unit := λ self,
  ({| valves := valves self;
      _conversation_store := _conversation_store self;
      _active_streams := <[k := info]> (_active_streams self) |}, Ok tt).

(** [x in d.values()] *)
Definition in_values (x : json) (d : gmap string string) : bool :=
  existsb (py_eq_str x) (map_to_list d).*2.

(** ** The three methods *)

(** What one call of [inlet] reads from the outside world: the identifier
    [str(uuid.uuid4())] would return, and the two readings of
    [time.time()] (for the generated session id, then for
    ["start_time"]). *)
Record inlet_env : Type := {
  uuid4 : string;
  time_session : Q;
  time_start : Q
}.

(** The backend's answer to [requests.post]: a response with its status
    code, or a [requests.exceptions.RequestException] with its text. *)
Inductive post_outcome : Type :=
  | Response (status_code : Z)
  | RequestException (description : string).

Record post_call : Type := {
  post_url : string;
  post_json : dict;
  post_timeout : Z
}.

(** What one call of [handle_stop] reads from the outside world. *)
Record stop_env : Type := {
  requests_post : post_call → post_outcome;
  time_stop : Q
}.

Definition stop_result (status message : string) : dict :=
  {[ "status" := JStr status; "message" := JStr message ]}.

Section Methods.

(** [hashlib.sha256(s.encode()).hexdigest()], kept abstract.  Every
    string of the model can be encoded; a [str] holding a lone surrogate,
    on which [encode] raises [UnicodeEncodeError], has no counterpart
    here. *)
Variable sha256_hexdigest : string → string.

Fixpoint first_user_digest (messages : list json) : result string :=
  match messages with
  | [] => Ok (sha256_hexdigest "")
  | message :: rest =>
      match message with
      | JObj m =>
          if py_eq_str (dict_get m "role") "user" then
            match dict_get_default m "content" (JStr "") with
            | JStr content => Ok (sha256_hexdigest content)
            | _ => Raise AttributeError
            end
          else first_user_digest rest
      | _ => Raise AttributeError
      end
  end.

Definition _hash_user_messages (messages : json) : result string :=
  match py_iter messages with
  | Ok l => first_user_digest l
  | Raise e => Raise e
  end.

Definition inlet (env : inlet_env) (body : dict) : Py dict :=
  let messages := dict_get_default body "messages" (JArr []) in
  conv_hash ← lift (_hash_user_messages messages);
  let provided_chat_id := dict_get body "chat_id" in
  store ← gets _conversation_store;
  body ← (if truthy provided_chat_id && in_values provided_chat_id store
          then mret (<["chat_id" := provided_chat_id]> body)
          else
            match store !! conv_hash with
            | Some stored => mret (<["chat_id" := JStr stored]> body)
            | None =>
                let chat_id := uuid4 env in
                _ ← store_conversation conv_hash chat_id;
                mret (<["chat_id" := JStr chat_id]> body)
            end);
  let session_id := dict_get body "session_id" in
  let generated := JStr ("session-" ++ py_str_int (py_int (time_session env))) in
  let '(session_id, body) :=
    if negb (truthy session_id)
    then (generated, <["session_id" := generated]> body)
    else (session_id, body) in
  chat_id ← lift (dict_getitem body "chat_id");
  key ← lift (as_key session_id);
  _ ← store_stream key
        {| chat_id := chat_id;
           start_time := time_start env;
           active := true;
           end_time := None;
           stopped_by_user := None;
           stop_time := None |};
  mret body.

Definition outlet (now : Q) (body : dict) : Py dict :=
  let session_id := dict_get body "session_id" in
  if truthy session_id then
    key ← lift (as_key session_id);
    streams ← gets _active_streams;
    match streams !! key with
    | Some info =>
        if truthy (dict_get_default body "done" (JBool false))
           || truthy (dict_get body "stop_reason")
        then
          _ ← store_stream key
                {| chat_id := chat_id info;
                   start_time := start_time info;
                   active := false;
                   end_time := Some now;
                   stopped_by_user := stopped_by_user info;
                   stop_time := stop_time info |};
          mret body
        else mret body
    | None => mret body
    end
  else mret body.

(** [handle_stop] returns the new filter, the requests it posted and
    the dictionary it answers with. *)
Definition handle_stop (env : stop_env) (session_id : string) (self : Filter)
  : Filter * list post_call * dict :=
  match _active_streams self !! KStr session_id with
  | None => (self, [], stop_result "error" "Session not found")
  | Some stream_info =>
      let stop_payload : dict :=
        {[ "session_id" := JStr session_id; "chat_id" := chat_id stream_info ]} in
      let call :=
        {| post_url := backend_url (valves self) ++ stop_endpoint (valves self);
           post_json := stop_payload;
           post_timeout := 5 |} in
      match requests_post env call with
      | Response status_code =>
          if Z.eqb status_code 200 then
            let '(self', _) :=
              store_stream (KStr session_id)
                {| chat_id := chat_id stream_info;
                   start_time := start_time stream_info;
                   active := false;
                   end_time := end_time stream_info;
                   stopped_by_user := Some true;
                   stop_time := Some (time_stop env) |} self in
            (self', [call], stop_result "success" "Stream stopped")
          else
            (self, [call],
             stop_result "error" ("Backend returned " ++ py_str_int status_code))
      | RequestException e =>
          (self, [call], stop_result "error" ("Failed to reach backend: " ++ e))
      end
  end.

(** ** Sequences of calls *)

Inductive call : Type :=
  | Inlet (env : inlet_env) (body : dict)
  | Outlet (now : Q) (body : dict)
  | HandleStop (env : stop_env) (session_id : string).

Definition exec (c : call) (self : Filter) : Filter :=
  match c with
  | Inlet env body => (inlet env body self).1
  | Outlet now body => (outlet now body self).1
  | HandleStop env session_id => (handle_stop env session_id self).1.1
  end.

Definition run (calls : list call) (self : Filter) : Filter :=
  fold_left (λ self c, exec c self) calls self.

(** ** Vocabulary of the specification *)

(** The request supplies a chat id and [_conversation_store] already holds
    it as a value: the guard of the first branch of [inlet]. *)
Definition trusted (body : dict) (store : gmap string string) : bool :=
  truthy (dict_get body "chat_id") && in_values (dict_get body "chat_id") store.

(** The chat id [inlet] settles on for a request with digest [conv_hash],
    and the conversation store it leaves. *)
Definition resolved_chat_id (env : inlet_env) (body : dict) (conv_hash : string)
    (store : gmap string string) : json :=
  if trusted body store then dict_get body "chat_id"
  else match store !! conv_hash with
       | Some stored => JStr stored
       | None => JStr (uuid4 env)
       end.

Definition resolved_store (env : inlet_env) (body : dict) (conv_hash : string)
    (store : gmap string string) : gmap string string :=
  if trusted body store then store
  else match store !! conv_hash with
       | Some _ => store
       | None => <[conv_hash := uuid4 env]> store
       end.

Definition generated_session_id (env : inlet_env) : json :=
  JStr ("session-" ++ py_str_int (py_int (time_session env))).

Definition resolved_session_id (env : inlet_env) (body : dict) : json :=
  if truthy (dict_get body "session_id") then dict_get body "session_id"
  else generated_session_id env.

Definition resolved_body (env : inlet_env) (body : dict) (conv_hash : string)
    (store : gmap string string) : dict :=
  let body' := <["chat_id" := resolved_chat_id env body conv_hash store]> body in
  if truthy (dict_get body "session_id") then body'
  else <["session_id" := generated_session_id env]> body'.

Definition new_stream (env : inlet_env) (cid : json) : stream_info :=
  {| chat_id := cid;
     start_time := time_start env;
     active := true;
     end_time := None;
     stopped_by_user := None;
     stop_time := None |}.

Definition with_store (self : Filter) (store : gmap string string) : Filter :=
  {| valves := valves self;
     _conversation_store := store;
     _active_streams := _active_streams self |}.

Definition with_streams (self : Filter) (streams : gmap pykey stream_info) : Filter :=
  {| valves := valves self;
     _conversation_store := _conversation_store self;
     _active_streams := streams |}.

(** The digest [inlet] computes for a body. *)
Definition fingerprint (body : dict) : result string :=
  _hash_user_messages (dict_get_default body "messages" (JArr [])).

(** The text that digest is taken of: the content of the first message of
    role ["user"], or the empty string. *)
Fixpoint first_user_content (messages : list json) : result string :=
  match messages with
  | [] => Ok ""
  | message :: rest =>
      match message with
      | JObj m =>
          if py_eq_str (dict_get m "role") "user" then
            match dict_get_default m "content" (JStr "") with
            | JStr content => Ok content
            | _ => Raise AttributeError
            end
          else first_user_content rest
      | _ => Raise AttributeError
      end
  end.

Definition digested_text (body : dict) : result string :=
  match py_iter (dict_get_default body "messages" (JArr [])) with
  | Ok l => first_user_content l
  | Raise e => Raise e
  end.

(** The session id a response carries, as a key of [_active_streams]. *)
Definition session_key (body : dict) : option pykey :=
  if truthy (dict_get body "session_id") then
    match as_key (dict_get body "session_id") with
    | Ok key => Some key
    | Raise _ => None
    end
  else None.

(** Shape of a request on which [inlet] goes through: the messages up to
    the first one of role ["user"] are objects and that one's content, if
    any, is a [str]; the session id, if any, can be a dictionary key. *)
Fixpoint messages_well_formed (messages : list json) : bool :=
  match messages with
  | [] => true
  | JObj m :: rest =>
      if py_eq_str (dict_get m "role") "user" then
        match m !! "content" with
        | None | Some (JStr _) => true
        | Some _ => false
        end
      else messages_well_formed rest
  | _ :: _ => false
  end.

Definition messages_field_well_formed (body : dict) : bool :=
  match body !! "messages" with
  | None => true
  | Some (JArr l) => messages_well_formed l
  | Some (JStr s) => String.eqb s ""
  | Some (JObj o) => Nat.eqb (size o) 0
  | Some _ => false
  end.

Definition session_field_well_formed (body : dict) : bool :=
  match body !! "session_id" with
  | Some (JArr l) => Nat.eqb (List.length l) 0
  | Some (JObj o) => Nat.eqb (size o) 0
  | _ => true
  end.

Definition well_formed_request (body : dict) : bool :=
  messages_field_well_formed body && session_field_well_formed body.

(** The response carries a completion signal: the guard of the inner
    [if] of [outlet]. *)
Definition signals_completion (body : dict) : bool :=
  truthy (dict_get_default body "done" (JBool false))
  || truthy (dict_get body "stop_reason").

Definition finished (now : Q) (info : stream_info) : stream_info :=
  {| chat_id := chat_id info;
     start_time := start_time info;
     active := false;
     end_time := Some now;
     stopped_by_user := stopped_by_user info;
     stop_time := stop_time info |}.

Definition stopped (now : Q) (info : stream_info) : stream_info :=
  {| chat_id := chat_id info;
     start_time := start_time info;
     active := false;
     end_time := end_time info;
     stopped_by_user := Some true;
     stop_time := Some now |}.

(** The request [handle_stop] posts for a registered session. *)
Definition stop_call (self : Filter) (session_id : string) (info : stream_info)
    : post_call :=
  {| post_url := backend_url (valves self) ++ stop_endpoint (valves self);
     post_json := {[ "session_id" := JStr session_id; "chat_id" := chat_id info ]};
     post_timeout := 5 |}.

(** The request supplies the chat id [s], and the conversation store
    already holds [s] as a value.  An empty string is no identifier. *)
Definition supplies_issued (body : dict) (store : gmap string string) (s : string) : Prop :=
  dict_get body "chat_id" = JStr s ∧ s ≠ "" ∧ ∃ fp, store !! fp = Some s.

(** Every registered session carries a chat id that is a value of the
    conversation store. *)
Definition sessions_recorded (self : Filter) : Prop :=
  ∀ k info, _active_streams self !! k = Some info →
    ∃ cid fp, chat_id info = JStr cid ∧ _conversation_store self !! fp = Some cid.

(** ** Sample data *)

Definition toy_digest (s : string) : string := "sha256:" ++ s.

Definition env_a : inlet_env :=
  {| uuid4 := "6fa459ea-ee8a-4ca4-894e-db77e160355e";
     time_session := 6800000001 # 4;
     time_start := 6800000003 # 4 |}.

Definition env_b : inlet_env :=
  {| uuid4 := "16fd2706-8baf-433b-82eb-8c7fada847da";
     time_session := 6800000101 # 4;
     time_start := 6800000103 # 4 |}.

Definition user_message (content : json) : json :=
  JObj {[ "role" := JStr "user"; "content" := content ]}.

Definition system_message : json :=
  JObj {[ "role" := JStr "system"; "content" := JStr "Be brief." ]}.

(** [{"messages": [{"role": "user", "content": "hi"}]}] *)
Definition request_hi : dict :=
  {[ "messages" := JArr [user_message (JStr "hi")] ]}.

(** The same opening message after a system prompt, with a session id. *)
Definition request_hi_again : dict :=
  {[ "messages" := JArr [system_message; user_message (JStr "hi");
                         user_message (JStr "and then?")];
     "session_id" := JStr "S2" ]}.

(** A multimodal message: the content is a list of parts. *)
Definition request_parts : dict :=
  {[ "messages" :=
       JArr [user_message
               (JArr [JObj {[ "type" := JStr "text"; "text" := JStr "hi" ]}])] ]}.

(** A filter that has seen ["hi"] once, from session ["S1"]. *)
Definition filter_hi : Filter :=
  {| valves := Valves_default;
     _conversation_store := {[ toy_digest "hi" := uuid4 env_a ]};
     _active_streams := {[ KStr "S1" := new_stream env_a (JStr (uuid4 env_a)) ]} |}.


Definition request_hello : dict :=
  {[ "messages" := JArr [user_message (JStr "hello")] ]}.

(** [{"session_id": "S1", "done": true}] *)
Definition response_done : dict :=
  {[ "session_id" := JStr "S1"; "done" := JBool true ]}.

(** A response whose session id is a list. *)
Definition response_list_session : dict :=
  {[ "session_id" := JArr [JStr "S1"]; "done" := JBool true ]}.

Definition backend_ok : stop_env :=
  {| requests_post := λ _, Response 200; time_stop := 6800000203 # 4 |}.


Definition backend_down : stop_env :=
  {| requests_post := λ _, RequestException "Connection refused";
     time_stop := 6800000203 # 4 |}.

Definition sample_calls : list call :=
  [ Outlet (6800000051 # 4) response_done;
    Inlet env_b request_hello;
    HandleStop backend_ok "S1";
    Inlet env_b request_parts ].

(** ** Vocabulary for histories of calls *)

Definition is_inlet (c : call) : bool :=
  match c with
  | Inlet _ _ => true
  | _ => false
  end.

Definition inlet_count (calls : list call) : nat :=
  List.length (List.filter is_inlet calls).

(** Some [inlet] call of the history had digest [fp] and generated
    [cid]. *)
Definition issued_in (calls : list call) (fp cid : string) : Prop :=
  ∃ env body, Inlet env body ∈ calls ∧ fingerprint body = Ok fp ∧ uuid4 env = cid.

(** The uuids generated for the [inlet] calls of a history, used or
    not. *)
Definition generated_uuids (calls : list call) : list string :=
  omap (λ c, match c with Inlet env _ => Some (uuid4 env) | _ => None end) calls.

(** A message the loop of [_hash_user_messages] steps over: an object
    whose role is not ["user"]. *)
Definition skipped_message (x : json) : Prop :=
  ∃ o, x = JObj o ∧ py_eq_str (dict_get o "role") "user" = false.

(** Two requests without a session id, arriving in the same second. *)
Definition env_a_late : inlet_env :=
  {| uuid4 := "16fd2706-8baf-433b-82eb-8c7fada847da";
     time_session := 6800000003 # 4;
     time_start := 6800000003 # 4 |}.

(** A request whose session id is a list. *)
Definition request_list_session : dict :=
  {[ "messages" := JArr [user_message (JStr "hello")];
     "session_id" := JArr [JStr "S3"] ]}.

(** A request whose ["messages"] are [null]. *)
Definition request_null_messages : dict :=
  {[ "messages" := JNull; "session_id" := JStr "S4" ]}.

(** Two conversations, each opened once. *)
Definition history_two : list call :=
  [ Inlet env_a request_hi;
    Outlet (6800000051 # 4) response_done;
    Inlet env_b request_hello ].

(** A history made of [outlet] and [handle_stop] calls only. *)
Definition history_closing : list call :=
  [ Outlet (6800000051 # 4) response_done;
    HandleStop backend_ok "S1";
    Outlet (6800000055 # 4) response_list_session ].

(** Requests on which [inlet] raises: the chat id issued for ["hi"] sent
    back with a multimodal message, or with a list as session id; the
    opening message ["hi"] after a [null] element, or with a list as
    session id. *)
Definition request_parts_trusted : dict :=
  {[ "messages" :=
       JArr [user_message
               (JArr [JObj {[ "type" := JStr "text"; "text" := JStr "hi" ]}])];
     "chat_id" := JStr (uuid4 env_a) ]}.

Definition request_hi_trusted_list_session : dict :=
  {[ "messages" := JArr [user_message (JStr "hi")];
     "chat_id" := JStr (uuid4 env_a);
     "session_id" := JArr [JStr "S3"] ]}.

Definition request_null_then_hi : dict :=
  {[ "messages" := JArr [JNull; user_message (JStr "hi")] ]}.

Definition request_hi_list_session : dict :=
  {[ "messages" := JArr [user_message (JStr "hi")];
     "session_id" := JArr [JStr "S3"] ]}.

(** ** Basic facts *)

Lemma in_values_true (x : json) (d : gmap string string) :
  in_values x d = true ↔ ∃ s k, x = JStr s ∧ d !! k = Some s.
Proof.
  unfold in_values. rewrite existsb_exists. split.
  - intros (v & Hin & Heq). destruct x; simpl in Heq; try discriminate.
    apply String.eqb_eq in Heq. subst v.
    apply list_elem_of_In, list_elem_of_fmap in Hin.
    destruct Hin as ([k v] & -> & Hkv). simpl.
    apply elem_of_map_to_list in Hkv. eauto.
  - intros (s & k & -> & Hk). exists s. split.
    + apply list_elem_of_In, list_elem_of_fmap. exists (k, s). split; [done|].
      by apply elem_of_map_to_list.
    + simpl. apply String.eqb_refl.
Qed.

Lemma trusted_true (body : dict) (store : gmap string string) :
  trusted body store = true ↔
  ∃ s k, dict_get body "chat_id" = JStr s ∧ s ≠ "" ∧ store !! k = Some s.
Proof.
  unfold trusted. rewrite andb_true_iff, in_values_true. split.
  - intros [Ht (s & k & Hs & Hk)]. exists s, k. split_and!; [done| |done].
    rewrite Hs in Ht. simpl in Ht. intros ->. discriminate.
  - intros (s & k & Hs & Hne & Hk). split; [|eauto].
    rewrite Hs. simpl. apply negb_true_iff, String.eqb_neq. done.
Qed.

Lemma with_store_same (self : Filter) :
  with_store self (_conversation_store self) = self.
Proof. by destruct self. Qed.

Lemma with_streams_same (self : Filter) :
  with_streams self (_active_streams self) = self.
Proof. by destruct self. Qed.

Lemma resolved_store_mono env body conv_hash (store : gmap string string) :
  store ⊆ resolved_store env body conv_hash store.
Proof.
  unfold resolved_store. destruct (trusted body store); [done|].
  destruct (store !! conv_hash) eqn:Hfp; [done|].
  by apply insert_subseteq.
Qed.

Lemma dict_get_insert_ne (d : dict) (k k' : string) (v : json) :
  k ≠ k' → dict_get (<[k := v]> d) k' = dict_get d k'.
Proof.
  intros Hne. unfold dict_get, dict_get_default. by rewrite lookup_insert_ne.
Qed.

Lemma dict_getitem_insert (d : dict) (k : string) (v : json) :
  dict_getitem (<[k := v]> d) k = Ok v.
Proof. unfold dict_getitem. by rewrite lookup_insert_eq. Qed.

Lemma dict_getitem_insert_ne (d : dict) (k k' : string) (v : json) :
  k ≠ k' → dict_getitem (<[k := v]> d) k' = dict_getitem d k'.
Proof. intros Hne. unfold dict_getitem. by rewrite lookup_insert_ne. Qed.

(** The second half of [inlet], from the session id on, for a body whose
    chat id has just been written. *)
Lemma inlet_register env (body : dict) (cid : json) (self : Filter) :
  (let session_id := dict_get (<["chat_id" := cid]> body) "session_id" in
   let generated := JStr ("session-" ++ py_str_int (py_int (time_session env))) in
   let '(session_id, body0) :=
     if negb (truthy session_id)
     then (generated, <["session_id" := generated]> (<["chat_id" := cid]> body))
     else (session_id, <["chat_id" := cid]> body) in
   chat_id ← lift (dict_getitem body0 "chat_id");
   key ← lift (as_key session_id);
   _ ← store_stream key (new_stream env chat_id);
   mret body0) self =
  match as_key (resolved_session_id env body) with
  | Ok key =>
      (with_streams self (<[key := new_stream env cid]> (_active_streams self)),
       Ok (if truthy (dict_get body "session_id") then <["chat_id" := cid]> body
           else <["session_id" := generated_session_id env]> (<["chat_id" := cid]> body)))
  | Raise e => (self, Raise e)
  end.
Proof.
  cbv zeta. rewrite dict_get_insert_ne by done.
  unfold resolved_session_id, generated_session_id.
  destruct (truthy (dict_get body "session_id")); simpl;
    unfold mbind, Py_bind, lift, mret, Py_ret, store_stream.
  - rewrite dict_getitem_insert.
    by destruct (as_key (dict_get body "session_id")).
  - rewrite dict_getitem_insert_ne, dict_getitem_insert by done. done.
Qed.

(** [inlet] in closed form, once the digest is known. *)
Lemma inlet_unfold env body self conv_hash :
  fingerprint body = Ok conv_hash →
  inlet env body self =
    let store := _conversation_store self in
    let self1 := with_store self (resolved_store env body conv_hash store) in
    match as_key (resolved_session_id env body) with
    | Ok key =>
        (with_streams self1
           (<[key := new_stream env (resolved_chat_id env body conv_hash store)]>
              (_active_streams self)),
         Ok (resolved_body env body conv_hash store))
    | Raise e => (self1, Raise e)
    end.
Proof.
  unfold fingerprint. intros Hfp.
  unfold inlet. unfold mbind at 1. unfold Py_bind at 1. unfold lift at 1.
  rewrite Hfp. unfold mbind at 1. unfold Py_bind at 1. unfold gets at 1.
  unfold mbind at 1. unfold Py_bind at 1.
  cbv zeta.
  unfold resolved_body, resolved_store, resolved_chat_id.
  fold (trusted body (_conversation_store self)).
  destruct (trusted body (_conversation_store self)).
  - unfold mret at 1, Py_ret at 1. rewrite with_store_same.
    exact (inlet_register env body _ self).
  - destruct (_conversation_store self !! conv_hash) as [stored|] eqn:Hstored.
    + unfold mret at 1, Py_ret at 1. rewrite with_store_same.
      exact (inlet_register env body _ self).
    + unfold mbind at 1, Py_bind at 1, store_conversation at 1.
      unfold mret at 1, Py_ret at 1.
      exact (inlet_register env body _ (with_store self _)).
Qed.

Lemma inlet_raises_early env body self e :
  fingerprint body = Raise e → inlet env body self = (self, Raise e).
Proof.
  unfold fingerprint. intros Hfp.
  unfold inlet. unfold mbind at 1. unfold Py_bind at 1. unfold lift at 1.
  by rewrite Hfp.
Qed.

Lemma first_user_digest_content (messages : list json) :
  first_user_digest messages =
  match first_user_content messages with
  | Ok s => Ok (sha256_hexdigest s)
  | Raise e => Raise e
  end.
Proof.
  induction messages as [|message rest IH]; [done|].
  destruct message as [| | | | |?|m]; try done. simpl.
  destruct (py_eq_str (dict_get m "role") "user"); [|exact IH].
  by destruct (dict_get_default m "content" (JStr "")).
Qed.

Lemma fingerprint_digested_text (body : dict) :
  fingerprint body =
  match digested_text body with
  | Ok s => Ok (sha256_hexdigest s)
  | Raise e => Raise e
  end.
Proof.
  unfold fingerprint, digested_text, _hash_user_messages.
  destruct (py_iter _); [apply first_user_digest_content|done].
Qed.

Lemma messages_well_formed_digest (messages : list json) :
  messages_well_formed messages = true ↔ ∃ h, first_user_digest messages = Ok h.
Proof.
  induction messages as [|message rest IH]; simpl.
  - split; eauto.
  - destruct message as [| | | | |?|m];
      try (split; [discriminate | intros [? ?]; discriminate]).
    destruct (py_eq_str (dict_get m "role") "user"); [|exact IH].
    unfold dict_get_default.
    destruct (m !! "content") as [[| | | | | |]|];
      (split; [try discriminate; eauto | try done; intros [? ?]; discriminate]).
Qed.

Lemma messages_field_well_formed_fingerprint (body : dict) :
  messages_field_well_formed body = true ↔ ∃ h, fingerprint body = Ok h.
Proof.
  unfold messages_field_well_formed, fingerprint, _hash_user_messages,
    dict_get_default.
  destruct (body !! "messages") as [[| | | |s|l|o]|]; simpl;
    try (split; [discriminate | intros [? ?]; discriminate]).
  - destruct s; simpl.
    + split; eauto.
    + split; [discriminate | intros [? ?]; discriminate].
  - apply messages_well_formed_digest.
  - destruct (map_to_list o) as [|[k v] rest] eqn:Ho; simpl.
    + apply map_to_list_empty_iff in Ho. subst o. rewrite map_size_empty.
      split; eauto.
    + assert (size o ≠ 0%nat) as Hsize.
      { intros Hz. apply map_size_empty_iff in Hz. subst o.
        by rewrite map_to_list_empty in Ho. }
      split; [|intros [? ?]; discriminate].
      intros Hz. apply Nat.eqb_eq in Hz. done.
  - split; eauto.
Qed.

Lemma session_field_well_formed_key env (body : dict) :
  session_field_well_formed body = true ↔
  ∃ key, as_key (resolved_session_id env body) = Ok key.
Proof.
  unfold session_field_well_formed, resolved_session_id, generated_session_id,
    dict_get, dict_get_default.
  destruct (body !! "session_id") as [[|b|z|q|s|l|o]|]; simpl.
  - split; eauto.
  - destruct b; simpl; split; eauto.
  - destruct (negb (z =? 0)%Z); simpl; split; eauto.
  - destruct (negb (Qnum q =? 0)%Z); simpl; split; eauto.
  - destruct (negb (s =? "")); simpl; split; eauto.
  - destruct (length l =? 0)%nat; simpl; split; eauto; try discriminate.
    intros [? ?]; discriminate.
  - destruct (size o =? 0)%nat; simpl; split; eauto; try discriminate.
    intros [? ?]; discriminate.
  - split; eauto.
Qed.

(** [outlet] in closed form. *)
Lemma outlet_unfold now body self :
  outlet now body self =
  if truthy (dict_get body "session_id") then
    match as_key (dict_get body "session_id") with
    | Ok key =>
        match _active_streams self !! key with
        | Some info =>
            if signals_completion body
            then (with_streams self (<[key := finished now info]> (_active_streams self)),
                  Ok body)
            else (self, Ok body)
        | None => (self, Ok body)
        end
    | Raise e => (self, Raise e)
    end
  else (self, Ok body).
Proof.
  unfold outlet, signals_completion.
  destruct (truthy (dict_get body "session_id")); [|done].
  unfold mbind, Py_bind, lift, gets.
  destruct (as_key (dict_get body "session_id")) as [key|e]; [|done].
  destruct (_active_streams self !! key) as [info|]; [|done].
  by destruct (truthy (dict_get_default body "done" (JBool false))
               || truthy (dict_get body "stop_reason")).
Qed.

(** [handle_stop] in closed form. *)
Lemma handle_stop_unfold env session_id self :
  handle_stop env session_id self =
  match _active_streams self !! KStr session_id with
  | None => (self, [], stop_result "error" "Session not found")
  | Some info =>
      let call := stop_call self session_id info in
      match requests_post env call with
      | Response status_code =>
          if Z.eqb status_code 200 then
            (with_streams self
               (<[KStr session_id := stopped (time_stop env) info]> (_active_streams self)),
             [call], stop_result "success" "Stream stopped")
          else
            (self, [call],
             stop_result "error" ("Backend returned " ++ py_str_int status_code))
      | RequestException e =>
          (self, [call], stop_result "error" ("Failed to reach backend: " ++ e))
      end
  end.
Proof. reflexivity. Qed.

(** *** What a call leaves alone *)

Lemma inlet_store env body self :
  _conversation_store (inlet env body self).1 =
  match fingerprint body with
  | Ok conv_hash => resolved_store env body conv_hash (_conversation_store self)
  | Raise _ => _conversation_store self
  end.
Proof.
  destruct (fingerprint body) as [conv_hash|e] eqn:Hfp.
  - rewrite (inlet_unfold _ _ _ _ Hfp). cbv zeta.
    by destruct (as_key (resolved_session_id env body)).
  - by rewrite (inlet_raises_early _ _ _ _ Hfp).
Qed.

Lemma outlet_store now body self :
  _conversation_store (outlet now body self).1 = _conversation_store self.
Proof.
  rewrite outlet_unfold.
  destruct (truthy _); [|done]. destruct (as_key _); [|done].
  destruct (_ !! _); [|done]. by destruct (signals_completion body).
Qed.

Lemma handle_stop_store env session_id self :
  _conversation_store (handle_stop env session_id self).1.1 = _conversation_store self.
Proof.
  rewrite handle_stop_unfold.
  destruct (_ !! _); [|done]. cbv zeta.
  destruct (requests_post env _) as [code|e]; [|done].
  by destruct (Z.eqb code 200).
Qed.

Lemma exec_store_mono (c : call) (self : Filter) :
  _conversation_store self ⊆ _conversation_store (exec c self).
Proof.
  destruct c as [env body|now body|env session_id]; simpl.
  - rewrite inlet_store. destruct (fingerprint body); [|done].
    apply resolved_store_mono.
  - by rewrite outlet_store.
  - by rewrite handle_stop_store.
Qed.

Lemma run_store_mono (calls : list call) (self : Filter) :
  _conversation_store self ⊆ _conversation_store (run calls self).
Proof.
  revert self. induction calls as [|c calls IH]; intros self; [done|].
  simpl. etrans; [apply (exec_store_mono c)|apply IH].
Qed.

Lemma resolved_body_chat_id env body conv_hash (store : gmap string string) :
  resolved_body env body conv_hash store !! "chat_id"
  = Some (resolved_chat_id env body conv_hash store).
Proof.
  unfold resolved_body. cbv zeta.
  destruct (truthy (dict_get body "session_id")).
  - by rewrite lookup_insert_eq.
  - rewrite lookup_insert_ne by done. by rewrite lookup_insert_eq.
Qed.

Lemma resolved_body_session_id env body conv_hash (store : gmap string string) :
  resolved_body env body conv_hash store !! "session_id"
  = Some (resolved_session_id env body).
Proof.
  unfold resolved_body, resolved_session_id. cbv zeta.
  destruct (truthy (dict_get body "session_id")) eqn:Hsid.
  - rewrite lookup_insert_ne by done.
    unfold dict_get, dict_get_default in *.
    by destruct (body !! "session_id").
  - by rewrite lookup_insert_eq.
Qed.

Lemma resolved_session_id_truthy env body :
  truthy (resolved_session_id env body) = true.
Proof.
  unfold resolved_session_id.
  by destruct (truthy (dict_get body "session_id")) eqn:Hsid.
Qed.

(** Whatever branch is taken, the chosen chat id is a [str] that the
    conversation store holds afterwards. *)
Lemma resolved_chat_id_recorded env body conv_hash (store : gmap string string) :
  ∃ cid fp, resolved_chat_id env body conv_hash store = JStr cid
            ∧ resolved_store env body conv_hash store !! fp = Some cid.
Proof.
  unfold resolved_chat_id, resolved_store.
  destruct (trusted body store) eqn:Ht.
  - apply trusted_true in Ht as (s & k & Hs & _ & Hk). eauto.
  - destruct (store !! conv_hash) as [stored|] eqn:Hfp; [eauto|].
    exists (uuid4 env), conv_hash. by rewrite lookup_insert_eq.
Qed.

(** Without a trusted chat id the request gets the identifier stored
    under its digest. *)
Lemma resolved_untrusted env body conv_hash (store : gmap string string) :
  trusted body store = false →
  ∃ cid, resolved_chat_id env body conv_hash store = JStr cid
         ∧ resolved_store env body conv_hash store !! conv_hash = Some cid.
Proof.
  intros Ht. unfold resolved_chat_id, resolved_store. rewrite Ht.
  destruct (store !! conv_hash) as [stored|] eqn:Hfp; [eauto|].
  exists (uuid4 env). by rewrite lookup_insert_eq.
Qed.

Lemma inlet_returns env body self conv_hash :
  fingerprint body = Ok conv_hash →
  session_field_well_formed body = true →
  ∃ key,
    as_key (resolved_session_id env body) = Ok key ∧
    inlet env body self =
      (with_streams
         (with_store self (resolved_store env body conv_hash (_conversation_store self)))
         (<[key := new_stream env
                     (resolved_chat_id env body conv_hash (_conversation_store self))]>
            (_active_streams self)),
       Ok (resolved_body env body conv_hash (_conversation_store self))).
Proof.
  intros Hfp Hsid.
  apply (session_field_well_formed_key env) in Hsid as [key Hkey].
  exists key. split; [done|].
  rewrite (inlet_unfold _ _ _ _ Hfp). cbv zeta. by rewrite Hkey.
Qed.

(** *** The invariant of the session registry *)

Lemma sessions_recorded_init : sessions_recorded __init__.
Proof. intros k info Hk. simpl in Hk. by rewrite lookup_empty in Hk. Qed.

Lemma sessions_recorded_grow (self : Filter) (store : gmap string string) :
  _conversation_store self ⊆ store →
  sessions_recorded self → sessions_recorded (with_store self store).
Proof.
  intros Hsub Hinv k info Hk. simpl in Hk.
  destruct (Hinv k info Hk) as (cid & fp & Hcid & Hfp).
  exists cid, fp. split; [done|]. simpl. by eapply lookup_weaken.
Qed.

Lemma sessions_recorded_insert (self : Filter) (key : pykey) (info : stream_info) :
  (∃ cid fp, chat_id info = JStr cid ∧ _conversation_store self !! fp = Some cid) →
  sessions_recorded self →
  sessions_recorded (with_streams self (<[key := info]> (_active_streams self))).
Proof.
  intros Hinfo Hinv k info' Hk. simpl in Hk |- *.
  destruct (decide (key = k)) as [->|Hne].
  - rewrite lookup_insert_eq in Hk. by simplify_eq.
  - rewrite lookup_insert_ne in Hk by done. by apply (Hinv k).
Qed.

Lemma exec_sessions_recorded (c : call) (self : Filter) :
  sessions_recorded self → sessions_recorded (exec c self).
Proof.
  intros Hinv. destruct c as [env body|now body|env session_id]; simpl.
  - destruct (fingerprint body) as [conv_hash|e] eqn:Hfp.
    + rewrite (inlet_unfold _ _ _ _ Hfp). cbv zeta.
      pose proof (sessions_recorded_grow self _
        (resolved_store_mono env body conv_hash _) Hinv) as Hinv1.
      destruct (as_key (resolved_session_id env body)) as [key|e]; [|exact Hinv1].
      simpl. apply (sessions_recorded_insert (with_store self _)); [|exact Hinv1].
      apply resolved_chat_id_recorded.
    + rewrite (inlet_raises_early _ _ _ _ Hfp). exact Hinv.
  - rewrite outlet_unfold.
    destruct (truthy _); [|exact Hinv]. destruct (as_key _) as [key|e]; [|exact Hinv].
    destruct (_active_streams self !! key) as [info|] eqn:Hkey; [|exact Hinv].
    destruct (signals_completion body); [|exact Hinv].
    simpl. apply sessions_recorded_insert; [|exact Hinv]. exact (Hinv key info Hkey).
  - rewrite handle_stop_unfold.
    destruct (_active_streams self !! KStr session_id) as [info|] eqn:Hkey; [|exact Hinv].
    cbv zeta. destruct (requests_post env _) as [code|e]; [|exact Hinv].
    destruct (Z.eqb code 200); [|exact Hinv].
    simpl. apply sessions_recorded_insert; [|exact Hinv]. exact (Hinv _ info Hkey).
Qed.

Lemma run_sessions_recorded (calls : list call) (self : Filter) :
  sessions_recorded self → sessions_recorded (run calls self).
Proof.
  revert self. induction calls as [|c calls IH]; intros self Hinv; [done|].
  simpl. apply IH. by apply exec_sessions_recorded.
Qed.

(** A request that is not well formed makes [inlet] raise. *)
Lemma inlet_raises_on_malformed env body self :
  well_formed_request body = false →
  ∃ self' e, inlet env body self = (self', Raise e).
Proof.
  unfold well_formed_request. intros Hwf.
  destruct (fingerprint body) as [conv_hash|e] eqn:Hfp.
  - rewrite (inlet_unfold _ _ _ _ Hfp). cbv zeta.
    destruct (as_key (resolved_session_id env body)) as [key|e] eqn:Hkey; [|eauto].
    assert (messages_field_well_formed body = true) as Hm
      by (apply messages_field_well_formed_fingerprint; eauto).
    assert (session_field_well_formed body = true) as Hs
      by (apply (session_field_well_formed_key env); eauto).
    rewrite Hm, Hs in Hwf. discriminate.
  - rewrite (inlet_raises_early _ _ _ _ Hfp). eauto.
Qed.

Lemma session_field_well_formed_as_key (body : dict) :
  session_field_well_formed body = true →
  truthy (dict_get body "session_id") = true →
  ∃ key, as_key (dict_get body "session_id") = Ok key.
Proof.
  unfold session_field_well_formed, dict_get, dict_get_default.
  destruct (body !! "session_id") as [[|b|z|q|s|l|o]|]; simpl; eauto.
  - intros ->. discriminate.
  - intros ->. discriminate.
Qed.

(** A response whose session id cannot be a key makes [outlet] raise,
    before it touches the filter. *)
Lemma outlet_raises_on_unhashable now body self :
  session_field_well_formed body = false →
  outlet now body self = (self, Raise TypeError).
Proof.
  rewrite outlet_unfold.
  unfold session_field_well_formed, dict_get, dict_get_default.
  destruct (body !! "session_id") as [[|b|z|q|s|l|o]|]; try discriminate; simpl.
  - by intros ->.
  - by intros ->.
Qed.

(** ** The claims *)

(** C1 (as amended).  Priority order of the chat id decision in [inlet],
    on the requests on which [inlet] returns (the messages can be
    digested and the session id can be a key).  For a request whose digest
    is [conv_hash]: when the body supplies a chat id that is
    already a value of [_conversation_store], that chat id is written back
    verbatim and the store is left alone; otherwise, when [conv_hash] is a
    key of the store, the identifier stored under it is used, whatever the
    client sent; otherwise the newly generated identifier is used and
    stored under [conv_hash]. *)
Theorem inlet_chat_id_priority env body self conv_hash :
  fingerprint body = Ok conv_hash →
  session_field_well_formed body = true →
  ∃ self' body' cid,
    inlet env body self = (self', Ok body') ∧
    body' !! "chat_id" = Some cid ∧
    let store := _conversation_store self in
    let store' := _conversation_store self' in
    (∀ s, supplies_issued body store s → cid = JStr s ∧ store' = store) ∧
    ((∀ s, ¬ supplies_issued body store s) →
       ∀ stored, store !! conv_hash = Some stored →
         cid = JStr stored ∧ store' = store) ∧
    ((∀ s, ¬ supplies_issued body store s) →
       store !! conv_hash = None →
         cid = JStr (uuid4 env) ∧ store' = <[conv_hash := uuid4 env]> store).
Proof.
  intros Hfp Hsid.
  destruct (inlet_returns env body self conv_hash Hfp Hsid) as (key & _ & ->).
  eexists _, _, _. split; [reflexivity|].
  split; [apply resolved_body_chat_id|].
  cbv zeta. simpl. unfold resolved_chat_id, resolved_store.
  destruct (trusted body (_conversation_store self)) eqn:Ht.
  - apply trusted_true in Ht as (s & k & Hs & Hne & Hk).
    assert (supplies_issued body (_conversation_store self) s) as Hissued
      by (split_and!; eauto).
    split_and!.
    + intros s' (Hs' & _). rewrite Hs in Hs' |- *. done.
    + intros Hnone. by destruct (Hnone s).
    + intros Hnone. by destruct (Hnone s).
  - assert (∀ s, ¬ supplies_issued body (_conversation_store self) s) as Hnone.
    { intros s (Hs & Hne & fp & Hk).
      assert (trusted body (_conversation_store self) = true) as Ht'
        by (apply trusted_true; eauto).
      congruence. }
    split_and!.
    + intros s Hs. by destruct (Hnone s).
    + intros _ stored Hstored. by rewrite Hstored.
    + intros _ Hstored. by rewrite Hstored.
Qed.

(** C2 (as amended).  Two requests on which [inlet] returns (the messages
    can be digested and the session id can be a key), that open with the
    same user message and supply no chat id, get the same chat id,
    whatever calls are made between the two [inlet] calls.  (The
    statement does not order the two bodies, so it covers both orders.) *)
Theorem same_first_message_same_chat_id env1 env2 body1 body2 calls self content :
  digested_text body1 = Ok content →
  digested_text body2 = Ok content →
  truthy (dict_get body1 "chat_id") = false →
  truthy (dict_get body2 "chat_id") = false →
  session_field_well_formed body1 = true →
  session_field_well_formed body2 = true →
  ∃ self1 body1' self2 body2' cid,
    inlet env1 body1 self = (self1, Ok body1') ∧
    inlet env2 body2 (run calls self1) = (self2, Ok body2') ∧
    body1' !! "chat_id" = Some (JStr cid) ∧
    body2' !! "chat_id" = Some (JStr cid).
Proof.
  intros Htext1 Htext2 Hnone1 Hnone2 Hsid1 Hsid2.
  set (conv_hash := sha256_hexdigest content).
  assert (fingerprint body1 = Ok conv_hash) as Hfp1
    by (by rewrite fingerprint_digested_text, Htext1).
  assert (fingerprint body2 = Ok conv_hash) as Hfp2
    by (by rewrite fingerprint_digested_text, Htext2).
  assert (∀ store, trusted body1 store = false) as Ht1
    by (intros store; unfold trusted; by rewrite Hnone1).
  assert (∀ store, trusted body2 store = false) as Ht2
    by (intros store; unfold trusted; by rewrite Hnone2).
  destruct (inlet_returns env1 body1 self conv_hash Hfp1 Hsid1) as (key1 & _ & Hin1).
  destruct (resolved_untrusted env1 body1 conv_hash (_conversation_store self) (Ht1 _))
    as (cid & Hcid & Hstored).
  remember (inlet env1 body1 self).1 as self1 eqn:Hself1.
  assert (_conversation_store (run calls self1) !! conv_hash = Some cid) as Hlater.
  { eapply lookup_weaken; [|apply run_store_mono].
    subst self1. by rewrite Hin1. }
  destruct (inlet_returns env2 body2 (run calls self1) conv_hash Hfp2 Hsid2)
    as (key2 & _ & Hin2).
  rewrite Hin1 in Hself1. simpl in Hself1.
  eexists self1, _, _, _, cid.
  split; [rewrite Hin1, Hself1; reflexivity|].
  split; [exact Hin2|].
  rewrite !resolved_body_chat_id. split; [by rewrite Hcid|].
  unfold resolved_chat_id. by rewrite Ht2, Hlater.
Qed.

(** C3.  [_conversation_store] is append-only: an identifier stored under
    a digest is still stored under it, unchanged, after any sequence of
    [inlet], [outlet] and [handle_stop] calls, whether they return or
    raise. *)
Theorem conversation_store_append_only calls self fp cid :
  _conversation_store self !! fp = Some cid →
  _conversation_store (run calls self) !! fp = Some cid.
Proof.
  intros Hfp. eapply lookup_weaken; [exact Hfp|apply run_store_mono].
Qed.

(** C4 (as amended).  On a well-formed request, that is one whose
    ["messages"] are absent or a list in which the elements up to the first
    of role ["user"] are objects and that one's content is absent or a
    [str], and whose ["session_id"] is absent, falsy or a scalar, [inlet]
    returns a body carrying a chat id and a session id.  Absent messages
    and an absent content give the digest of the empty string, an absent
    session id gives the generated one, and an absent chat id gives the
    identifier held under the digest. *)
Theorem inlet_returns_on_well_formed env body self :
  well_formed_request body = true →
  ∃ self' body' conv_hash cid sid,
    inlet env body self = (self', Ok body') ∧
    fingerprint body = Ok conv_hash ∧
    body' !! "chat_id" = Some (JStr cid) ∧
    body' !! "session_id" = Some sid ∧
    truthy sid = true ∧
    (body !! "messages" = None → conv_hash = sha256_hexdigest "") ∧
    (∀ m rest, body !! "messages" = Some (JArr (JObj m :: rest)) →
       m !! "role" = Some (JStr "user") → m !! "content" = None →
       conv_hash = sha256_hexdigest "") ∧
    (body !! "session_id" = None → sid = generated_session_id env) ∧
    (body !! "chat_id" = None → _conversation_store self' !! conv_hash = Some cid).
Proof.
  unfold well_formed_request. intros [Hm Hs]%andb_true_iff.
  apply messages_field_well_formed_fingerprint in Hm as [conv_hash Hfp].
  destruct (inlet_returns env body self conv_hash Hfp Hs) as (key & _ & ->).
  destruct (resolved_chat_id_recorded env body conv_hash (_conversation_store self))
    as (cid & fp & Hcid & _).
  eexists _, _, conv_hash, cid, _. split; [reflexivity|]. split; [done|].
  split; [by rewrite resolved_body_chat_id, Hcid|].
  split; [apply resolved_body_session_id|].
  split; [apply resolved_session_id_truthy|].
  split_and!.
  - intros Hnone. unfold fingerprint, dict_get_default in Hfp.
    rewrite Hnone in Hfp. cbn in Hfp. congruence.
  - intros m rest Hmsgs Hrole Hcontent.
    unfold fingerprint, dict_get_default in Hfp. rewrite Hmsgs in Hfp.
    cbn in Hfp. unfold dict_get, dict_get_default in Hfp.
    rewrite Hrole, Hcontent in Hfp. cbn in Hfp. congruence.
  - intros Hnone. unfold resolved_session_id, dict_get, dict_get_default.
    by rewrite Hnone.
  - intros Hnone. simpl.
    assert (trusted body (_conversation_store self) = false) as Ht.
    { unfold trusted, dict_get, dict_get_default. by rewrite Hnone. }
    destruct (resolved_untrusted env body conv_hash _ Ht) as (cid' & Hcid' & Hst).
    congruence.
Qed.

(** C5 (as amended).  For a response whose ["session_id"] is absent, falsy
    or a scalar: when the session id is a key of [_active_streams] and the
    body carries a truthy ["done"] or ["stop_reason"], [outlet] sets that
    entry's ["active"] to [False] and its ["end_time"] to the current time;
    in every other case the filter is unchanged; the body is returned as
    it came. *)
Theorem outlet_marks_finished now body self :
  session_field_well_formed body = true →
  (∀ key info,
     session_key body = Some key →
     _active_streams self !! key = Some info →
     signals_completion body = true →
     outlet now body self =
       (with_streams self (<[key := finished now info]> (_active_streams self)), Ok body)
     ∧ active (finished now info) = false
     ∧ end_time (finished now info) = Some now) ∧
  (session_key body = None
   ∨ (∃ key, session_key body = Some key ∧ _active_streams self !! key = None)
   ∨ signals_completion body = false →
   outlet now body self = (self, Ok body)).
Proof.
  intros Hwf. pose proof (session_field_well_formed_as_key body Hwf) as Hkey.
  rewrite outlet_unfold. unfold session_key.
  destruct (truthy (dict_get body "session_id")).
  - destruct (Hkey eq_refl) as [key ->]. split.
    + intros key' info Hk Hinfo Hsignal. simplify_eq.
      by rewrite Hinfo, Hsignal.
    + intros [Hk | [(key' & Hk & Hnone) | Hsignal]].
      * discriminate.
      * simplify_eq. by rewrite Hnone.
      * rewrite Hsignal. by destruct (_active_streams self !! key).
  - split; [intros key info Hk; discriminate|done].
Qed.

(** C6.  [handle_stop] on a session id that is not a key of
    [_active_streams] answers [{"status": "error", "message": "Session not
    found"}], posts nothing, and leaves both dictionaries as they were. *)
Theorem handle_stop_unknown_session env session_id self :
  _active_streams self !! KStr session_id = None →
  handle_stop env session_id self
  = (self, [], stop_result "error" "Session not found").
Proof. intros Hnone. rewrite handle_stop_unfold. by rewrite Hnone. Qed.



(** C9.  Every session registered in [_active_streams] carries a chat id
    that is a value of [_conversation_store] (a newly generated identifier
    is stored in the same [inlet] call that registers it).  This holds of
    the filter as constructed and is kept by every sequence of [inlet],
    [outlet] and [handle_stop] calls. *)
Theorem sessions_recorded_invariant :
  sessions_recorded __init__ ∧
  (∀ calls self, sessions_recorded self → sessions_recorded (run calls self)) ∧
  (∀ calls, sessions_recorded (run calls __init__)).
Proof.
  split_and!.
  - apply sessions_recorded_init.
  - apply run_sessions_recorded.
  - intros calls. apply run_sessions_recorded, sessions_recorded_init.
Qed.


(** ** Further properties of the methods *)

Lemma resolved_body_other env body conv_hash (store : gmap string string) (k : string) :
  k ≠ "chat_id" → k ≠ "session_id" →
  resolved_body env body conv_hash store !! k = body !! k.
Proof.
  intros Hc Hs. unfold resolved_body. cbv zeta.
  destruct (truthy (dict_get body "session_id"));
    by rewrite !lookup_insert_ne by done.
Qed.

Lemma as_key_well_formed (body : dict) (sid : json) (key : pykey) :
  body !! "session_id" = Some sid → as_key sid = Ok key →
  session_field_well_formed body = true.
Proof.
  intros Hsid Hkey. unfold session_field_well_formed. rewrite Hsid.
  by destruct sid.
Qed.

Lemma falsy_session_well_formed (body : dict) :
  truthy (dict_get body "session_id") = false →
  session_field_well_formed body = true.
Proof.
  unfold session_field_well_formed, dict_get, dict_get_default.
  destruct (body !! "session_id") as [[|b|z|q|s|l|o]|]; simpl; try done.
  - by intros ->%negb_false_iff.
  - by intros ->%negb_false_iff.
Qed.

(** X1.  A returning [inlet] leaves, under the key of the session id it
    wrote to the body, a fresh entry: the body's chat id, the start time,
    [active = True] and none of ["end_time"], ["stopped_by_user"],
    ["stop_time"], whatever entry the key held before.  The entries under
    all other keys are untouched. *)
Theorem inlet_registers_stream env body self conv_hash :
  fingerprint body = Ok conv_hash →
  session_field_well_formed body = true →
  ∃ self' body' cid sid key,
    inlet env body self = (self', Ok body') ∧
    body' !! "chat_id" = Some cid ∧
    body' !! "session_id" = Some sid ∧
    as_key sid = Ok key ∧
    _active_streams self' !! key
    = Some {| chat_id := cid;
              start_time := time_start env;
              active := true;
              end_time := None;
              stopped_by_user := None;
              stop_time := None |} ∧
    (∀ k, k ≠ key → _active_streams self' !! k = _active_streams self !! k).
Proof.
  intros Hfp Hsid.
  destruct (inlet_returns env body self conv_hash Hfp Hsid) as (key & Hkey & ->).
  eexists _, _, _, _, key. split; [reflexivity|].
  split; [apply resolved_body_chat_id|].
  split; [apply resolved_body_session_id|].
  split; [exact Hkey|]. simpl. split.
  - by rewrite lookup_insert_eq.
  - intros k Hk. by rewrite lookup_insert_ne.
Qed.

(** X2.  A returning [inlet] keeps a truthy session id as it came,
    replaces an absent or falsy one by ["session-"] followed by the
    current time in whole seconds, and leaves every key of the body other
    than ["chat_id"] and ["session_id"] as it was. *)
Theorem inlet_session_id_and_frame env body self conv_hash :
  fingerprint body = Ok conv_hash →
  session_field_well_formed body = true →
  ∃ self' body',
    inlet env body self = (self', Ok body') ∧
    (truthy (dict_get body "session_id") = true →
     body' !! "session_id" = body !! "session_id") ∧
    (truthy (dict_get body "session_id") = false →
     body' !! "session_id"
     = Some (JStr ("session-" ++ py_str_int (py_int (time_session env))))) ∧
    (∀ k, k ≠ "chat_id" → k ≠ "session_id" → body' !! k = body !! k).
Proof.
  intros Hfp Hsid.
  destruct (inlet_returns env body self conv_hash Hfp Hsid) as (key & Hkey & ->).
  eexists _, _. split; [reflexivity|].
  rewrite resolved_body_session_id. unfold resolved_session_id.
  split_and!.
  - intros Ht. rewrite Ht. unfold dict_get, dict_get_default in *.
    by destruct (body !! "session_id").
  - intros Ht. by rewrite Ht.
  - intros k. apply resolved_body_other.
Qed.

Lemma fingerprint_resolved_body env body conv_hash (store : gmap string string) :
  fingerprint (resolved_body env body conv_hash store) = fingerprint body.
Proof.
  unfold fingerprint, dict_get_default.
  by rewrite resolved_body_other.
Qed.

(** The chat id chosen for a body is chosen again when the body comes
    back carrying it, against any larger store. *)
Lemma resolved_chat_id_again env1 env2 body body1 conv_hash
    (store later : gmap string string) :
  resolved_store env1 body conv_hash store ⊆ later →
  dict_get body1 "chat_id" = resolved_chat_id env1 body conv_hash store →
  resolved_chat_id env2 body1 conv_hash later = resolved_chat_id env1 body conv_hash store
  ∧ resolved_store env2 body1 conv_hash later = later.
Proof.
  intros Hsub Hcid.
  unfold resolved_chat_id at 1. unfold resolved_store at 1.
  destruct (trusted body1 later) eqn:Hlater; [done|].
  destruct (trusted body store) eqn:Hfirst.
  - apply trusted_true in Hfirst as (s & k & Hs & Hne & Hk).
    assert (trusted body1 later = true) as Habs; [|congruence].
    apply trusted_true. exists s, k. split_and!; [|done|].
    + rewrite Hcid. unfold resolved_chat_id.
      assert (trusted body store = true) as -> by (apply trusted_true; eauto).
      done.
    + eapply lookup_weaken; [|exact Hsub]. unfold resolved_store.
      assert (trusted body store = true) as -> by (apply trusted_true; eauto).
      done.
  - destruct (resolved_untrusted env1 body conv_hash store Hfirst)
      as (cid & Hchosen & Hstored).
    assert (later !! conv_hash = Some cid) as ->
      by (eapply lookup_weaken; [exact Hstored|exact Hsub]).
    by rewrite Hchosen.
Qed.

(** X3.  Feeding the body [inlet] returned back to [inlet], after any
    calls in between, returns that body unchanged and leaves the
    conversation store as it is. *)
Theorem inlet_returned_body_is_stable env1 env2 body calls self conv_hash :
  fingerprint body = Ok conv_hash →
  session_field_well_formed body = true →
  ∃ self1 body1 self2,
    inlet env1 body self = (self1, Ok body1) ∧
    inlet env2 body1 (run calls self1) = (self2, Ok body1) ∧
    _conversation_store self2 = _conversation_store (run calls self1).
Proof.
  intros Hfp Hsid.
  destruct (inlet_returns env1 body self conv_hash Hfp Hsid) as (key & Hkey & Hin1).
  set (store := _conversation_store self) in *.
  set (body1 := resolved_body env1 body conv_hash store) in *.
  remember (inlet env1 body self).1 as self1 eqn:Hself1.
  assert (_conversation_store self1 = resolved_store env1 body conv_hash store)
    as Hstore1 by (subst self1; by rewrite Hin1).
  assert (fingerprint body1 = Ok conv_hash) as Hfp1
    by (unfold body1; by rewrite fingerprint_resolved_body).
  assert (body1 !! "session_id" = Some (resolved_session_id env1 body)) as Hsid1
    by apply resolved_body_session_id.
  assert (body1 !! "chat_id" = Some (resolved_chat_id env1 body conv_hash store))
    as Hcid1 by apply resolved_body_chat_id.
  assert (session_field_well_formed body1 = true) as Hwf1
    by (eapply as_key_well_formed; eauto).
  destruct (inlet_returns env2 body1 (run calls self1) conv_hash Hfp1 Hwf1)
    as (key2 & _ & Hin2).
  destruct (resolved_chat_id_again env1 env2 body body1 conv_hash store
              (_conversation_store (run calls self1))) as [Hagain Hsame].
  { rewrite <- Hstore1. apply run_store_mono. }
  { unfold dict_get, dict_get_default. by rewrite Hcid1. }
  assert (resolved_body env2 body1 conv_hash (_conversation_store (run calls self1))
          = body1) as Hbody.
  { unfold resolved_body at 1. cbv zeta. rewrite Hagain.
    assert (truthy (dict_get body1 "session_id") = true) as ->.
    { unfold dict_get, dict_get_default. rewrite Hsid1.
      apply resolved_session_id_truthy. }
    by apply insert_id. }
  exists self1, body1. eexists. split; [subst self1; by rewrite Hin1|].
  rewrite Hin2, Hbody. simpl. by rewrite Hsame.
Qed.

(** *** Histories *)

Lemma run_cons (c : call) (calls : list call) (self : Filter) :
  run (c :: calls) self = run calls (exec c self).
Proof. reflexivity. Qed.

(** What [outlet] and [handle_stop] do to the registry: nothing, or they
    rewrite one existing entry as finished, respectively stopped. *)
Lemma exec_other_streams (c : call) (self : Filter) :
  is_inlet c = false →
  _active_streams (exec c self) = _active_streams self
  ∨ ∃ key info now,
      _active_streams self !! key = Some info ∧
      (_active_streams (exec c self) = <[key := finished now info]> (_active_streams self)
       ∨ _active_streams (exec c self) = <[key := stopped now info]> (_active_streams self)).
Proof.
  destruct c as [env body|now body|env session_id]; simpl; [done| |]; intros _.
  - rewrite outlet_unfold.
    destruct (truthy _); [|by left]. destruct (as_key _) as [key|e]; [|by left].
    destruct (_active_streams self !! key) as [info|] eqn:Hkey; [|by left].
    destruct (signals_completion body); [|by left].
    right. exists key, info, now. eauto.
  - rewrite handle_stop_unfold.
    destruct (_active_streams self !! KStr session_id) as [info|] eqn:Hkey; [|by left].
    cbv zeta. destruct (requests_post env _) as [code|e]; [|by left].
    destruct (Z.eqb code 200); [|by left].
    right. exists (KStr session_id), info, (time_stop env). eauto.
Qed.

Lemma exec_valves (c : call) (self : Filter) : valves (exec c self) = valves self.
Proof.
  destruct c as [env body|now body|env session_id]; simpl.
  - destruct (fingerprint body) as [conv_hash|e] eqn:Hfp.
    + rewrite (inlet_unfold _ _ _ _ Hfp). cbv zeta.
      by destruct (as_key (resolved_session_id env body)).
    + by rewrite (inlet_raises_early _ _ _ _ Hfp).
  - rewrite outlet_unfold.
    destruct (truthy _); [|done]. destruct (as_key _); [|done].
    destruct (_ !! _); [|done]. by destruct (signals_completion body).
  - rewrite handle_stop_unfold.
    destruct (_ !! _); [|done]. cbv zeta.
    destruct (requests_post env _) as [code|e]; [|done].
    by destruct (Z.eqb code 200).
Qed.

Lemma run_valves (calls : list call) (self : Filter) :
  valves (run calls self) = valves self.
Proof.
  revert self. induction calls as [|c calls IH]; intros self; [done|].
  by rewrite run_cons, IH, exec_valves.
Qed.

Lemma exec_store_origin (c : call) (self : Filter) (fp cid : string) :
  _conversation_store (exec c self) !! fp = Some cid →
  _conversation_store self !! fp = Some cid ∨ issued_in [c] fp cid.
Proof.
  destruct c as [env body|now body|env session_id]; simpl.
  - rewrite inlet_store.
    destruct (fingerprint body) as [conv_hash|e] eqn:Hfp; [|by left].
    unfold resolved_store. destruct (trusted body _); [by left|].
    destruct (_conversation_store self !! conv_hash) eqn:Hold; [by left|].
    intros [[<- <-]|[_ Hlookup]]%lookup_insert_Some; [|by left].
    right. exists env, body. split_and!; [apply list_elem_of_here|done..].
  - rewrite outlet_store. by left.
  - rewrite handle_stop_store. by left.
Qed.

Lemma run_store_origin (calls : list call) (self : Filter) (fp cid : string) :
  _conversation_store (run calls self) !! fp = Some cid →
  _conversation_store self !! fp = Some cid ∨ issued_in calls fp cid.
Proof.
  revert self. induction calls as [|c calls IH]; intros self; [by left|].
  rewrite run_cons. intros Hrun.
  destruct (IH _ Hrun) as [Hexec|(env & body & Hin & Hfp & Hcid)].
  - destruct (exec_store_origin _ _ _ _ Hexec)
      as [Hold|(env & body & Hin & Hfp & Hcid)]; [by left|].
    right. exists env, body. split_and!; [|done..].
    apply list_elem_of_singleton in Hin as ->. apply list_elem_of_here.
  - right. exists env, body. split_and!; [|done..]. by apply list_elem_of_further.
Qed.

(** X4.  Only [inlet] fills the conversation store, and only with what it
    generated: in a filter reached from a new one, every binding has as
    key the digest of a request some [inlet] call received and as value
    the uuid generated in that call.  An identifier supplied by a client
    is never stored. *)
Theorem conversation_store_origin calls fp cid :
  _conversation_store (run calls __init__) !! fp = Some cid →
  ∃ env body,
    Inlet env body ∈ calls ∧ fingerprint body = Ok fp ∧ uuid4 env = cid.
Proof.
  intros Hrun. destruct (run_store_origin _ _ _ _ Hrun) as [Hinit|Hissued].
  - simpl in Hinit. by rewrite lookup_empty in Hinit.
  - exact Hissued.
Qed.

Lemma exec_streams_kept (c : call) (self : Filter) (k : pykey) :
  is_Some (_active_streams self !! k) → is_Some (_active_streams (exec c self) !! k).
Proof.
  intros Hk. destruct c as [env body|now body|env session_id].
  - simpl. destruct (fingerprint body) as [conv_hash|e] eqn:Hfp.
    + rewrite (inlet_unfold _ _ _ _ Hfp). cbv zeta.
      destruct (as_key (resolved_session_id env body)) as [key|e]; [|done].
      simpl. apply lookup_insert_is_Some'. by right.
    + by rewrite (inlet_raises_early _ _ _ _ Hfp).
  - destruct (exec_other_streams (Outlet now body) self eq_refl)
      as [->|(key & info & t & _ & [-> | ->])]; [done|..];
      apply lookup_insert_is_Some'; by right.
  - destruct (exec_other_streams (HandleStop env session_id) self eq_refl)
      as [->|(key & info & t & _ & [-> | ->])]; [done|..];
      apply lookup_insert_is_Some'; by right.
Qed.

(** X5.  No call ever removes a session: a key of [_active_streams] is
    still a key after any sequence of calls. *)
Theorem sessions_never_deleted calls self k :
  is_Some (_active_streams self !! k) →
  is_Some (_active_streams (run calls self) !! k).
Proof.
  revert self. induction calls as [|c calls IH]; intros self Hk; [done|].
  rewrite run_cons. by apply IH, exec_streams_kept.
Qed.

Lemma exec_other_entry (c : call) (self : Filter) (k : pykey) :
  is_inlet c = false →
  match _active_streams self !! k, _active_streams (exec c self) !! k with
  | Some info, Some info' =>
      chat_id info' = chat_id info ∧ start_time info' = start_time info
      ∧ (active info = false → active info' = false)
  | None, None => True
  | _, _ => False
  end.
Proof.
  intros Hc.
  destruct (exec_other_streams c self Hc)
    as [->|(key & info0 & t & Hkey & [-> | ->])].
  - by destruct (_active_streams self !! k).
  - destruct (decide (key = k)) as [<-|Hne].
    + by rewrite lookup_insert_eq, Hkey.
    + rewrite lookup_insert_ne by done. by destruct (_active_streams self !! k).
  - destruct (decide (key = k)) as [<-|Hne].
    + by rewrite lookup_insert_eq, Hkey.
    + rewrite lookup_insert_ne by done. by destruct (_active_streams self !! k).
Qed.

(** X6.  Only [inlet] registers a session, sets its chat id and start
    time, or makes it active: over any sequence of [outlet] and
    [handle_stop] calls the set of sessions is the same, every session
    keeps its chat id and start time, and one that is inactive stays
    inactive. *)
Theorem only_inlet_activates calls self k :
  forallb (λ c, negb (is_inlet c)) calls = true →
  match _active_streams self !! k, _active_streams (run calls self) !! k with
  | Some info, Some info' =>
      chat_id info' = chat_id info ∧ start_time info' = start_time info
      ∧ (active info = false → active info' = false)
  | None, None => True
  | _, _ => False
  end.
Proof.
  revert self. induction calls as [|c calls IH]; intros self Hcalls.
  - simpl. by destruct (_active_streams self !! k).
  - simpl in Hcalls. apply andb_true_iff in Hcalls as [Hc%negb_true_iff Hcalls].
    rewrite run_cons. specialize (IH (exec c self) Hcalls).
    pose proof (exec_other_entry c self k Hc) as Hstep.
    destruct (_active_streams self !! k) as [info|],
      (_active_streams (exec c self) !! k) as [info1|],
      (_active_streams (run calls (exec c self)) !! k) as [info2|]; try done.
    destruct Hstep as (Hcid1 & Hstart1 & Hactive1), IH as (Hcid2 & Hstart2 & Hactive2).
    split_and!; [congruence|congruence|auto].
Qed.

Lemma size_insert_le {K V} `{Countable K} (m : gmap K V) (k : K) (v : V) :
  (size (<[k := v]> m) ≤ S (size m))%nat.
Proof.
  destruct (m !! k) eqn:Hk.
  - rewrite map_size_insert_Some by eauto. lia.
  - rewrite map_size_insert_None by done. lia.
Qed.

Lemma exec_sizes (c : call) (self : Filter) :
  let grow := if is_inlet c then 1%nat else 0%nat in
  (size (_conversation_store (exec c self)) ≤ size (_conversation_store self) + grow)%nat
  ∧ (size (_active_streams (exec c self)) ≤ size (_active_streams self) + grow)%nat.
Proof.
  destruct c as [env body|now body|env session_id]; cbv zeta.
  - simpl. destruct (fingerprint body) as [conv_hash|e] eqn:Hfp.
    + rewrite (inlet_unfold _ _ _ _ Hfp). cbv zeta.
      assert (size (resolved_store env body conv_hash (_conversation_store self))
              ≤ size (_conversation_store self) + 1)%nat as Hstore.
      { unfold resolved_store. destruct (trusted body _); [lia|].
        destruct (_conversation_store self !! conv_hash); [lia|].
        pose proof (size_insert_le (_conversation_store self) conv_hash (uuid4 env)).
        lia. }
      destruct (as_key (resolved_session_id env body)) as [key|e]; simpl.
      * split; [exact Hstore|].
        pose proof (size_insert_le (_active_streams self) key
          (new_stream env (resolved_chat_id env body conv_hash (_conversation_store self)))).
        lia.
      * split; [exact Hstore|lia].
    + rewrite (inlet_raises_early _ _ _ _ Hfp). simpl. lia.
  - split.
    + simpl. rewrite outlet_store. lia.
    + destruct (exec_other_streams (Outlet now body) self eq_refl)
        as [->|(key & info & t & Hkey & [-> | ->])]; [simpl; lia|..];
        rewrite map_size_insert_Some by eauto; simpl; lia.
  - split.
    + simpl. rewrite handle_stop_store. lia.
    + destruct (exec_other_streams (HandleStop env session_id) self eq_refl)
        as [->|(key & info & t & Hkey & [-> | ->])]; [simpl; lia|..];
        rewrite map_size_insert_Some by eauto; simpl; lia.
Qed.

(** X7.  Each [inlet] call adds at most one conversation and at most one
    session, and the other calls add none: after any sequence of calls
    both dictionaries have grown by no more than the number of [inlet]
    calls. *)
Theorem dictionaries_grow_with_inlets calls self :
  (size (_conversation_store (run calls self))
   ≤ size (_conversation_store self) + inlet_count calls)%nat
  ∧ (size (_active_streams (run calls self))
     ≤ size (_active_streams self) + inlet_count calls)%nat.
Proof.
  revert self. induction calls as [|c calls IH]; intros self.
  - simpl. unfold inlet_count. simpl. lia.
  - rewrite run_cons. destruct (IH (exec c self)) as [IHstore IHstreams].
    destruct (exec_sizes c self) as [Hstore Hstreams]. cbv zeta in *.
    unfold inlet_count in *. simpl.
    destruct (is_inlet c); simpl; lia.
Qed.

(** X8.  For a registered session [handle_stop] posts exactly one
    request, whatever the backend answers (there is no retry): to the
    backend URL followed by the stop endpoint, as configured when the
    filter was set up (no call changes the valves), with a timeout of 5
    and a payload made of the session id and the chat id recorded for
    it. *)
Theorem handle_stop_posts_once env session_id calls self info :
  _active_streams (run calls self) !! KStr session_id = Some info →
  (handle_stop env session_id (run calls self)).1.2
  = [ {| post_url := backend_url (valves self) ++ stop_endpoint (valves self);
         post_json := {[ "session_id" := JStr session_id;
                         "chat_id" := chat_id info ]};
         post_timeout := 5 |} ].
Proof.
  intros Hinfo. rewrite handle_stop_unfold, Hinfo. cbv zeta.
  unfold stop_call. rewrite run_valves.
  destruct (requests_post env _) as [code|e]; [|done].
  by destruct (Z.eqb code 200).
Qed.

Lemma finished_stopped (now t : Q) (info : stream_info) :
  finished now (stopped t info) = stopped t (finished now info).
Proof. reflexivity. Qed.

Lemma exec_outlet_eq now body self :
  exec (Outlet now body) self =
  match session_key body with
  | Some key =>
      match _active_streams self !! key with
      | Some info =>
          if signals_completion body
          then with_streams self (<[key := finished now info]> (_active_streams self))
          else self
      | None => self
      end
  | None => self
  end.
Proof.
  simpl. rewrite outlet_unfold. unfold session_key.
  destruct (truthy _); [|done]. destruct (as_key _) as [key|e]; [|done].
  destruct (_active_streams self !! key); [|done].
  by destruct (signals_completion body).
Qed.

Lemma exec_handle_stop_eq env session_id self :
  exec (HandleStop env session_id) self =
  match _active_streams self !! KStr session_id with
  | Some info =>
      match requests_post env (stop_call self session_id info) with
      | Response code =>
          if Z.eqb code 200
          then with_streams self
                 (<[KStr session_id := stopped (time_stop env) info]> (_active_streams self))
          else self
      | RequestException _ => self
      end
  | None => self
  end.
Proof.
  simpl. rewrite handle_stop_unfold.
  destruct (_active_streams self !! KStr session_id); [|done]. cbv zeta.
  destruct (requests_post env _) as [code|e]; [|done].
  by destruct (Z.eqb code 200).
Qed.

(** The stop request and its answer do not depend on whether [outlet]
    ran before. *)
Lemma handle_stop_after_outlet now body env session_id self :
  (handle_stop env session_id (exec (Outlet now body) self)).1.2
  = (handle_stop env session_id self).1.2
  ∧ (handle_stop env session_id (exec (Outlet now body) self)).2
    = (handle_stop env session_id self).2.
Proof.
  rewrite exec_outlet_eq.
  destruct (session_key body) as [key|]; [|done].
  destruct (_active_streams self !! key) as [info|] eqn:Hkey; [|done].
  destruct (signals_completion body); [|done].
  rewrite !handle_stop_unfold. simpl.
  destruct (decide (key = KStr session_id)) as [->|Hne].
  - rewrite lookup_insert_eq, Hkey. cbv zeta.
    change (stop_call (with_streams self _) session_id (finished now info))
      with (stop_call self session_id info).
    destruct (requests_post env _) as [code|e]; [|done].
    by destruct (Z.eqb code 200).
  - rewrite lookup_insert_ne by done.
    destruct (_active_streams self !! KStr session_id) as [info'|]; [|done].
    cbv zeta.
    change (stop_call (with_streams self _) session_id info')
      with (stop_call self session_id info').
    destruct (requests_post env _) as [code|e]; [|done].
    by destruct (Z.eqb code 200).
Qed.

(** X9.  [outlet] and [handle_stop] commute: finishing a stream and
    stopping one, in either order, leave the same filter, and the stop
    request and its answer are the same whether or not [outlet] ran
    first. *)
Theorem outlet_handle_stop_commute now body env session_id self :
  exec (HandleStop env session_id) (exec (Outlet now body) self)
  = exec (Outlet now body) (exec (HandleStop env session_id) self)
  ∧ (handle_stop env session_id (exec (Outlet now body) self)).1.2
    = (handle_stop env session_id self).1.2
  ∧ (handle_stop env session_id (exec (Outlet now body) self)).2
    = (handle_stop env session_id self).2.
Proof.
  split; [|apply handle_stop_after_outlet].
  rewrite (exec_outlet_eq now body (exec _ self)).
  rewrite (exec_handle_stop_eq env session_id (exec _ self)).
  rewrite exec_outlet_eq, exec_handle_stop_eq.
  destruct (session_key body) as [key|]; [|done].
  destruct (decide (key = KStr session_id)) as [->|Hne].
  - destruct (_active_streams self !! KStr session_id) as [info|] eqn:Hkey;
      [|by rewrite Hkey].
    destruct (signals_completion body).
    + simpl. rewrite lookup_insert_eq.
      change (stop_call (with_streams self _) session_id (finished now info))
        with (stop_call self session_id info).
      destruct (requests_post env _) as [code|e]; [|by rewrite Hkey].
      destruct (Z.eqb code 200); [|by rewrite Hkey].
      simpl. rewrite lookup_insert_eq. unfold with_streams. simpl.
      by rewrite !insert_insert_eq.
    + rewrite Hkey.
      destruct (requests_post env _) as [code|e]; [|by rewrite Hkey].
      destruct (Z.eqb code 200); [|by rewrite Hkey].
      simpl. by rewrite lookup_insert_eq.
  - destruct (_active_streams self !! key) as [info|] eqn:Hkey.
    + destruct (signals_completion body).
      * simpl. rewrite lookup_insert_ne by done.
        destruct (_active_streams self !! KStr session_id) as [info'|] eqn:Hsid;
          [|by rewrite Hkey].
        change (stop_call (with_streams self _) session_id info')
          with (stop_call self session_id info').
        destruct (requests_post env _) as [code|e]; [|by rewrite Hkey].
        destruct (Z.eqb code 200); [|by rewrite Hkey].
        simpl. rewrite lookup_insert_ne by done. rewrite Hkey.
        unfold with_streams. simpl. by rewrite insert_insert_ne.
      * destruct (_active_streams self !! KStr session_id) as [info'|] eqn:Hsid;
          [|by rewrite Hkey].
        destruct (requests_post env _) as [code|e]; [|by rewrite Hkey].
        destruct (Z.eqb code 200); [|by rewrite Hkey].
        simpl. rewrite lookup_insert_ne by done. by rewrite Hkey.
    + destruct (_active_streams self !! KStr session_id) as [info'|] eqn:Hsid;
        [|by rewrite Hkey].
      destruct (requests_post env _) as [code|e]; [|by rewrite Hkey].
      destruct (Z.eqb code 200); [|by rewrite Hkey].
      simpl. rewrite lookup_insert_ne by done. by rewrite Hkey.
Qed.

(** X10.  [outlet] does not look at the ["active"] flag: a second
    completion signal for the same response stamps the end time again, so
    after two [outlet] calls on one body the filter is as if only the
    second had run. *)
Theorem outlet_last_signal_wins now1 now2 body self :
  exec (Outlet now2 body) (exec (Outlet now1 body) self)
  = exec (Outlet now2 body) self.
Proof.
  rewrite (exec_outlet_eq now2 body (exec _ self)), !exec_outlet_eq.
  destruct (session_key body) as [key|]; [|done].
  destruct (_active_streams self !! key) as [info|] eqn:Hkey; [|by rewrite Hkey].
  destruct (signals_completion body); [|by rewrite Hkey].
  simpl. rewrite lookup_insert_eq. unfold with_streams. simpl.
  by rewrite insert_insert_eq.
Qed.

(** *** The digest *)

Lemma first_user_digest_skip (pre rest : list json) :
  Forall skipped_message pre →
  first_user_digest (pre ++ rest) = first_user_digest rest.
Proof.
  induction 1 as [|x pre (o & -> & Hrole) _ IH]; [done|].
  simpl. by rewrite Hrole.
Qed.

Lemma first_user_digest_default pre m rest :
  Forall skipped_message pre →
  py_eq_str (dict_get m "role") "user" = true →
  m !! "content" = None ∨ m !! "content" = Some (JStr "") →
  _hash_user_messages (JArr (pre ++ JObj m :: rest)) = Ok (sha256_hexdigest "").
Proof.
  intros Hpre Hrole Hcontent. unfold _hash_user_messages. simpl.
  rewrite first_user_digest_skip by done. simpl. rewrite Hrole.
  unfold dict_get_default. by destruct Hcontent as [-> | ->].
Qed.

(** X11.  The digest is that of the first message of role ["user"] only:
    messages of other roles before it are stepped over, and whatever
    follows it is not even looked at, be it further user messages or
    values that are no messages at all. *)
Theorem _hash_user_messages_first_user pre m rest content :
  Forall skipped_message pre →
  py_eq_str (dict_get m "role") "user" = true →
  dict_get_default m "content" (JStr "") = JStr content →
  _hash_user_messages (JArr (pre ++ JObj m :: rest)) = Ok (sha256_hexdigest content).
Proof.
  intros Hpre Hrole Hcontent. unfold _hash_user_messages. simpl.
  rewrite first_user_digest_skip by done. simpl. by rewrite Hrole, Hcontent.
Qed.

(** X12.  A conversation without any user message is not told apart from
    one that opens with an empty user message: a list of messages of
    other roles has the digest of the empty string, which is also the
    digest when the first user message has the content [""] or no
    content at all. *)
Theorem _hash_user_messages_default others m rest :
  Forall skipped_message others →
  py_eq_str (dict_get m "role") "user" = true →
  m !! "content" = None ∨ m !! "content" = Some (JStr "") →
  _hash_user_messages (JArr others) = Ok (sha256_hexdigest "")
  ∧ _hash_user_messages (JArr (others ++ JObj m :: rest))
    = _hash_user_messages (JArr others).
Proof.
  intros Hothers Hrole Hcontent.
  assert (_hash_user_messages (JArr others) = Ok (sha256_hexdigest "")) as Hnone.
  { unfold _hash_user_messages. simpl.
    rewrite <- (app_nil_r others). by rewrite first_user_digest_skip. }
  split; [exact Hnone|]. rewrite Hnone.
  apply first_user_digest_default; done.
Qed.

(** *** Session ids *)

Lemma generated_session_id_key env body :
  truthy (dict_get body "session_id") = false →
  resolved_session_id env body
  = JStr ("session-" ++ py_str_int (py_int (time_session env))).
Proof. intros Hsid. unfold resolved_session_id. by rewrite Hsid. Qed.

(** X13.  Generated session ids are only as fine as the clock's whole
    seconds: two requests without a session id whose [inlet] calls read
    the same second get the same session id, and the entry registered for
    the first is replaced by the one for the second. *)
Theorem generated_session_ids_collide env1 env2 body1 body2 self h1 h2 :
  fingerprint body1 = Ok h1 →
  fingerprint body2 = Ok h2 →
  truthy (dict_get body1 "session_id") = false →
  truthy (dict_get body2 "session_id") = false →
  py_int (time_session env1) = py_int (time_session env2) →
  ∃ self1 body1' self2 body2' sid cid2,
    inlet env1 body1 self = (self1, Ok body1') ∧
    inlet env2 body2 self1 = (self2, Ok body2') ∧
    body1' !! "session_id" = Some (JStr sid) ∧
    body2' !! "session_id" = Some (JStr sid) ∧
    body2' !! "chat_id" = Some cid2 ∧
    _active_streams self2 = <[KStr sid := new_stream env2 cid2]> (_active_streams self).
Proof.
  intros Hfp1 Hfp2 Hsid1 Hsid2 Hsecond.
  destruct (inlet_returns env1 body1 self h1 Hfp1 (falsy_session_well_formed _ Hsid1))
    as (key1 & Hkey1 & Hin1).
  remember (inlet env1 body1 self).1 as self1 eqn:Hself1.
  destruct (inlet_returns env2 body2 self1 h2 Hfp2 (falsy_session_well_formed _ Hsid2))
    as (key2 & Hkey2 & Hin2).
  rewrite generated_session_id_key in Hkey1, Hkey2 by done.
  rewrite <- Hsecond in Hkey2. simpl in Hkey1, Hkey2. simplify_eq.
  rewrite Hin1 in Hin2 |- *. simpl in Hin2.
  eexists _, _, _, _, _, _. split; [reflexivity|]. split; [exact Hin2|].
  rewrite !resolved_body_session_id, !generated_session_id_key by done.
  rewrite <- Hsecond. split; [reflexivity|]. split; [reflexivity|].
  split; [apply resolved_body_chat_id|].
  simpl. by rewrite insert_insert_eq.
Qed.

(** *** When [inlet] raises *)

Lemma malformed_session_key env body :
  session_field_well_formed body = false →
  as_key (resolved_session_id env body) = Raise TypeError.
Proof.
  unfold session_field_well_formed, resolved_session_id, dict_get, dict_get_default.
  destruct (body !! "session_id") as [[|b|z|q|s|l|o]|]; try discriminate; simpl.
  - by intros ->.
  - by intros ->.
Qed.

Lemma first_user_digest_raises (messages : list json) (e : exn) :
  first_user_digest messages = Raise e → e = AttributeError.
Proof.
  induction messages as [|message rest IH]; [discriminate|].
  destruct message as [| | | | |?|m]; simpl; try congruence.
  destruct (py_eq_str (dict_get m "role") "user"); [|exact IH].
  destruct (dict_get_default m "content" (JStr "")); congruence.
Qed.

Lemma fingerprint_raises (body : dict) (e : exn) :
  fingerprint body = Raise e → e = AttributeError ∨ e = TypeError.
Proof.
  unfold fingerprint, _hash_user_messages.
  destruct (py_iter _) as [l|e'] eqn:Hiter.
  - intros Hl%first_user_digest_raises. by left.
  - intros [= <-]. right.
    destruct (dict_get_default body "messages" (JArr [])); simpl in Hiter; congruence.
Qed.

(** X14.  A request refused for its session id has already been given a
    conversation: when the digest is new and the session id is a list or
    an object, [inlet] raises [TypeError] after it has stored the
    generated chat id under the digest, and the registry is untouched. *)
Theorem inlet_raise_keeps_conversation env body self conv_hash :
  fingerprint body = Ok conv_hash →
  session_field_well_formed body = false →
  truthy (dict_get body "chat_id") = false →
  _conversation_store self !! conv_hash = None →
  inlet env body self
  = ({| valves := valves self;
        _conversation_store := <[conv_hash := uuid4 env]> (_conversation_store self);
        _active_streams := _active_streams self |},
     Raise TypeError).
Proof.
  intros Hfp Hsid Hnone Hnew.
  rewrite (inlet_unfold _ _ _ _ Hfp). cbv zeta.
  rewrite (malformed_session_key env body Hsid).
  unfold resolved_store, trusted. by rewrite Hnone, Hnew.
Qed.

(** X15.  A request whose ["messages"] have the wrong shape is refused
    before anything is written, and the filter is exactly as it was: when
    the field is not iterable ([null], a boolean, a number) [inlet] raises
    [TypeError]; when an element up to the first user message is not an
    object, or that message's content is there and is not a [str], it
    raises [AttributeError]. *)
Theorem inlet_raise_on_messages_is_clean env body self :
  messages_field_well_formed body = false →
  ∃ e,
    inlet env body self = (self, Raise e) ∧
    match py_iter (dict_get_default body "messages" (JArr [])) with
    | Ok _ => e = AttributeError
    | Raise _ => e = TypeError
    end.
Proof.
  intros Hmsgs. destruct (fingerprint body) as [conv_hash|e] eqn:Hfp.
  - assert (messages_field_well_formed body = true) as Hwf
      by (apply messages_field_well_formed_fingerprint; eauto).
    congruence.
  - exists e. split; [by apply inlet_raises_early|].
    unfold fingerprint, _hash_user_messages in Hfp.
    destruct (py_iter _) as [l|e'] eqn:Hiter.
    + by eapply first_user_digest_raises.
    + injection Hfp as <-.
      destruct (dict_get_default body "messages" (JArr [])); simpl in Hiter; congruence.
Qed.

(** *** From [inlet] to the other two methods *)


(** X17.  A response that carries the session id [inlet] wrote to the
    request, with a completion signal, finishes exactly the entry that
    [inlet] registered: afterwards it holds the same chat id and start
    time, [active = False] and the end time. *)
Theorem inlet_then_outlet env body self conv_hash :
  fingerprint body = Ok conv_hash →
  session_field_well_formed body = true →
  ∃ self' body' cid sid key,
    inlet env body self = (self', Ok body') ∧
    body' !! "chat_id" = Some cid ∧
    body' !! "session_id" = Some sid ∧
    as_key sid = Ok key ∧
    ∀ now resp,
      resp !! "session_id" = Some sid →
      signals_completion resp = true →
      ∃ self'',
        outlet now resp self' = (self'', Ok resp) ∧
        _active_streams self'' !! key
        = Some {| chat_id := cid;
                  start_time := time_start env;
                  active := false;
                  end_time := Some now;
                  stopped_by_user := None;
                  stop_time := None |} ∧
        _conversation_store self'' = _conversation_store self'.
Proof.
  intros Hfp Hsid.
  destruct (inlet_returns env body self conv_hash Hfp Hsid) as (key & Hkey & ->).
  eexists _, _, _, _, key. split; [reflexivity|].
  split; [apply resolved_body_chat_id|].
  split; [apply resolved_body_session_id|].
  split; [exact Hkey|].
  intros now resp Hresp Hsignal.
  rewrite outlet_unfold. unfold dict_get at 1 2, dict_get_default at 1 2.
  rewrite Hresp, resolved_session_id_truthy, Hkey. simpl.
  rewrite lookup_insert_eq, Hsignal.
  eexists. split; [reflexivity|]. simpl. by rewrite lookup_insert_eq.
Qed.

(** X18.  Two requests without a chat id whose digests differ and are
    both new get one generated identifier each, stored under their own
    digest; their chat ids are equal only if the two generated uuids
    are. *)
Theorem different_digests_get_own_ids env1 env2 body1 body2 self h1 h2 :
  fingerprint body1 = Ok h1 →
  fingerprint body2 = Ok h2 →
  h1 ≠ h2 →
  truthy (dict_get body1 "chat_id") = false →
  truthy (dict_get body2 "chat_id") = false →
  session_field_well_formed body1 = true →
  session_field_well_formed body2 = true →
  _conversation_store self !! h1 = None →
  _conversation_store self !! h2 = None →
  ∃ self1 body1' self2 body2',
    inlet env1 body1 self = (self1, Ok body1') ∧
    inlet env2 body2 self1 = (self2, Ok body2') ∧
    body1' !! "chat_id" = Some (JStr (uuid4 env1)) ∧
    body2' !! "chat_id" = Some (JStr (uuid4 env2)) ∧
    _conversation_store self2
    = <[h2 := uuid4 env2]> (<[h1 := uuid4 env1]> (_conversation_store self)).
Proof.
  intros Hfp1 Hfp2 Hne Hnone1 Hnone2 Hsid1 Hsid2 Hnew1 Hnew2.
  destruct (inlet_returns env1 body1 self h1 Hfp1 Hsid1) as (key1 & _ & Hin1).
  remember (inlet env1 body1 self).1 as self1 eqn:Hself1.
  destruct (inlet_returns env2 body2 self1 h2 Hfp2 Hsid2) as (key2 & _ & Hin2).
  assert (∀ store, trusted body1 store = false) as Ht1
    by (intros store; unfold trusted; by rewrite Hnone1).
  assert (∀ store, trusted body2 store = false) as Ht2
    by (intros store; unfold trusted; by rewrite Hnone2).
  assert (_conversation_store self1 = <[h1 := uuid4 env1]> (_conversation_store self))
    as Hstore1.
  { subst self1. rewrite Hin1. simpl. unfold resolved_store. by rewrite Ht1, Hnew1. }
  assert (_conversation_store self1 !! h2 = None) as Hnew2'
    by (by rewrite Hstore1, lookup_insert_ne).
  exists self1. eexists _, _, _.
  split; [subst self1; by rewrite Hin1|]. split; [exact Hin2|].
  rewrite !resolved_body_chat_id. unfold resolved_chat_id.
  rewrite Ht1, Ht2, Hnew1, Hnew2'. split; [done|]. split; [done|].
  simpl. unfold resolved_store. by rewrite Ht2, Hnew2', Hstore1.
Qed.

(** *** Distinct conversations *)

Lemma run_app (calls1 calls2 : list call) (self : Filter) :
  run (calls1 ++ calls2) self = run calls2 (run calls1 self).
Proof. unfold run. apply fold_left_app. Qed.

Lemma issued_in_generated (calls : list call) (fp cid : string) :
  issued_in calls fp cid → cid ∈ generated_uuids calls.
Proof.
  intros (env & body & Hin & _ & <-). unfold generated_uuids.
  apply list_elem_of_omap. by exists (Inlet env body).
Qed.

(** X19.  As long as no uuid is generated twice, no two digests share a
    chat id: the conversation store of a filter reached from a new one is
    injective. *)
Theorem distinct_uuids_distinct_conversations calls fp1 fp2 cid :
  NoDup (generated_uuids calls) →
  _conversation_store (run calls __init__) !! fp1 = Some cid →
  _conversation_store (run calls __init__) !! fp2 = Some cid →
  fp1 = fp2.
Proof.
  revert fp1 fp2 cid. induction calls as [|c calls IH] using rev_ind;
    intros fp1 fp2 cid Hnodup.
  - simpl. by rewrite lookup_empty.
  - unfold generated_uuids in Hnodup. rewrite omap_app in Hnodup.
    apply NoDup_app in Hnodup as (Hcalls & Hnew & _).
    rewrite run_app. change (run [c] ?x) with (exec c x).
    set (self := run calls __init__) in *.
    assert (∀ fp u, _conversation_store self !! fp = Some u → u ∈ generated_uuids calls)
      as Hvalues.
    { intros fp u Hu. destruct (run_store_origin _ _ _ _ Hu) as [Hinit|Hissued].
      - simpl in Hinit. by rewrite lookup_empty in Hinit.
      - exact (issued_in_generated _ _ _ Hissued). }
    destruct c as [env body|now body|env session_id].
    + simpl. rewrite inlet_store.
      destruct (fingerprint body) as [conv_hash|e]; [|exact (IH fp1 fp2 cid Hcalls)].
      unfold resolved_store. destruct (trusted body _); [exact (IH fp1 fp2 cid Hcalls)|].
      destruct (_conversation_store self !! conv_hash) eqn:Hold; [exact (IH fp1 fp2 cid Hcalls)|].
      assert (∀ fp, _conversation_store self !! fp ≠ Some (uuid4 env)) as Hfresh.
      { intros fp Hfp. apply (Hnew (uuid4 env)); [exact (Hvalues fp _ Hfp)|].
        simpl. apply list_elem_of_here. }
      intros [[<- <-]|[Hne1 H1]]%lookup_insert_Some
             [[<- Heq]|[Hne2 H2]]%lookup_insert_Some; try done.
      * by destruct (Hfresh fp2).
      * subst cid. by destruct (Hfresh fp1).
      * exact (IH fp1 fp2 cid Hcalls H1 H2).
    + simpl. rewrite outlet_store. exact (IH fp1 fp2 cid Hcalls).
    + simpl. rewrite handle_stop_store. exact (IH fp1 fp2 cid Hcalls).
Qed.

End Methods.

(** ** The claims on the sample data *)

(** A chat id that the store has issued is not used when [inlet] raises:
    with a multimodal message the digest fails first, and with a list as
    session id the registration fails; no body is returned. *)
Lemma inlet_issued_chat_id_raises :
  (∃ fp, _conversation_store filter_hi !! fp = Some (uuid4 env_a)) ∧
  dict_get request_parts_trusted "chat_id" = JStr (uuid4 env_a) ∧
  inlet toy_digest env_b request_parts_trusted filter_hi
  = (filter_hi, Raise AttributeError) ∧
  dict_get request_hi_trusted_list_session "chat_id" = JStr (uuid4 env_a) ∧
  inlet toy_digest env_b request_hi_trusted_list_session filter_hi
  = (filter_hi, Raise TypeError).
Proof.
  split; [exists (toy_digest "hi"); vm_compute; reflexivity|].
  repeat split; vm_compute; reflexivity.
Qed.

Lemma inlet_chat_id_priority_witness :
  fingerprint toy_digest request_hi_again = Ok (toy_digest "hi") ∧
  session_field_well_formed request_hi_again = true ∧
  ∃ self' body',
    inlet toy_digest env_b request_hi_again filter_hi = (self', Ok body') ∧
    body' !! "chat_id" = Some (JStr (uuid4 env_a)) ∧
    _conversation_store self' = _conversation_store filter_hi.
Proof.
  assert (fingerprint toy_digest request_hi_again = Ok (toy_digest "hi")) as Hfp
    by (vm_compute; reflexivity).
  assert (session_field_well_formed request_hi_again = true) as Hsid
    by (vm_compute; reflexivity).
  split; [exact Hfp|]. split; [exact Hsid|].
  destruct (inlet_chat_id_priority toy_digest env_b request_hi_again filter_hi
              (toy_digest "hi") Hfp Hsid)
    as (self' & body' & cid & Hin & Hcid & _ & Hstored & _).
  exists self', body'. split; [exact Hin|].
  assert (∀ s, ¬ supplies_issued request_hi_again (_conversation_store filter_hi) s)
    as Hnone by (intros s [Hs _]; vm_compute in Hs; discriminate).
  destruct (Hstored Hnone (uuid4 env_a)) as [-> ->]; [vm_compute; reflexivity|].
  split; [exact Hcid|reflexivity].
Defined.

(** Three requests open with the user message ["hi"] and supply no chat
    id.  The first gets a chat id; the one with a [null] element before
    the user message and the one with a list as session id raise and get
    none. *)
Lemma same_first_message_one_raises :
  ∃ self1 body1',
    inlet toy_digest env_a request_hi __init__ = (self1, Ok body1') ∧
    body1' !! "chat_id" = Some (JStr (uuid4 env_a)) ∧
    inlet toy_digest env_b request_null_then_hi self1 = (self1, Raise AttributeError) ∧
    inlet toy_digest env_b request_hi_list_session self1 = (self1, Raise TypeError).
Proof.
  eexists _, _. split; [vm_compute; reflexivity|].
  repeat split; vm_compute; reflexivity.
Qed.

Lemma same_first_message_same_chat_id_witness :
  digested_text request_hi = Ok "hi" ∧
  digested_text request_hi_again = Ok "hi" ∧
  ∃ self1 body1' self2 body2' cid,
    inlet toy_digest env_a request_hi __init__ = (self1, Ok body1') ∧
    inlet toy_digest env_b request_hi_again (run toy_digest sample_calls self1)
    = (self2, Ok body2') ∧
    body1' !! "chat_id" = Some (JStr cid) ∧
    body2' !! "chat_id" = Some (JStr cid).
Proof.
  assert (digested_text request_hi = Ok "hi") as Htext1 by (vm_compute; reflexivity).
  assert (digested_text request_hi_again = Ok "hi") as Htext2
    by (vm_compute; reflexivity).
  split; [exact Htext1|]. split; [exact Htext2|].
  apply (same_first_message_same_chat_id toy_digest env_a env_b request_hi
           request_hi_again sample_calls __init__ "hi" Htext1 Htext2);
    vm_compute; reflexivity.
Defined.

Lemma conversation_store_append_only_witness :
  _conversation_store filter_hi !! toy_digest "hi" = Some (uuid4 env_a) ∧
  _conversation_store (run toy_digest sample_calls filter_hi) !! toy_digest "hi"
  = Some (uuid4 env_a).
Proof.
  assert (_conversation_store filter_hi !! toy_digest "hi" = Some (uuid4 env_a))
    as Hfp by (vm_compute; reflexivity).
  split; [exact Hfp|].
  exact (conversation_store_append_only toy_digest sample_calls filter_hi _ _ Hfp).
Defined.

(** A multimodal request makes [inlet] raise: a list has no [encode]. *)
Lemma inlet_raises_on_list_content :
  inlet toy_digest env_a request_parts __init__ = (__init__, Raise AttributeError).
Proof. vm_compute. reflexivity. Qed.

Lemma inlet_returns_on_well_formed_witness :
  well_formed_request request_hi_again = true ∧
  ∃ self' body' conv_hash cid sid,
    inlet toy_digest env_b request_hi_again filter_hi = (self', Ok body') ∧
    fingerprint toy_digest request_hi_again = Ok conv_hash ∧
    body' !! "chat_id" = Some (JStr cid) ∧
    body' !! "session_id" = Some sid.
Proof.
  assert (well_formed_request request_hi_again = true) as Hwf
    by (vm_compute; reflexivity).
  split; [exact Hwf|].
  destruct (inlet_returns_on_well_formed toy_digest env_b request_hi_again filter_hi Hwf)
    as (self' & body' & conv_hash & cid & sid & Hin & Hfp & Hcid & Hsid & _).
  exists self', body', conv_hash, cid, sid. auto.
Defined.

(** A response whose session id is a list makes [outlet] raise: a list
    cannot be looked up in a dictionary. *)
Lemma outlet_raises_on_list_session :
  outlet (6800000051 # 4) response_list_session filter_hi
  = (filter_hi, Raise TypeError).
Proof. vm_compute. reflexivity. Qed.

Lemma outlet_marks_finished_witness :
  session_field_well_formed response_done = true ∧
  outlet (6800000051 # 4) response_done filter_hi
  = (with_streams filter_hi
       {[ KStr "S1" := finished (6800000051 # 4)
                         (new_stream env_a (JStr (uuid4 env_a))) ]},
     Ok response_done).
Proof.
  assert (session_field_well_formed response_done = true) as Hwf
    by (vm_compute; reflexivity).
  split; [exact Hwf|].
  destruct (outlet_marks_finished (6800000051 # 4) response_done filter_hi Hwf)
    as [Hmark _].
  destruct (Hmark (KStr "S1") (new_stream env_a (JStr (uuid4 env_a))))
    as [-> _]; vm_compute; reflexivity.
Defined.

Lemma handle_stop_unknown_session_witness :
  _active_streams filter_hi !! KStr "unknown-session" = None ∧
  handle_stop backend_ok "unknown-session" filter_hi
  = (filter_hi, [], stop_result "error" "Session not found").
Proof.
  assert (_active_streams filter_hi !! KStr "unknown-session" = None) as Hnone
    by (vm_compute; reflexivity).
  split; [exact Hnone|].
  exact (handle_stop_unknown_session backend_ok "unknown-session" filter_hi Hnone).
Defined.



Lemma sessions_recorded_filter_hi : sessions_recorded filter_hi.
Proof.
  intros k info Hk. simpl in Hk.
  apply lookup_singleton_Some in Hk as [_ <-].
  exists (uuid4 env_a), (toy_digest "hi"). split; [reflexivity|].
  vm_compute. reflexivity.
Defined.

Lemma sessions_recorded_invariant_witness :
  sessions_recorded filter_hi ∧
  sessions_recorded (run toy_digest sample_calls filter_hi).
Proof.
  split; [exact sessions_recorded_filter_hi|].
  apply (proj1 (proj2 (sessions_recorded_invariant toy_digest)) sample_calls filter_hi).
  exact sessions_recorded_filter_hi.
Defined.


(** ** The further properties on the sample data *)

Lemma inlet_registers_stream_witness :
  fingerprint toy_digest request_hi_again = Ok (toy_digest "hi") ∧
  session_field_well_formed request_hi_again = true ∧
  ∃ self' body',
    inlet toy_digest env_b request_hi_again filter_hi = (self', Ok body') ∧
    _active_streams self' !! KStr "S2"
    = Some (new_stream env_b (JStr (uuid4 env_a))) ∧
    _active_streams self' !! KStr "S1" = _active_streams filter_hi !! KStr "S1".
Proof.
  assert (fingerprint toy_digest request_hi_again = Ok (toy_digest "hi")) as Hfp
    by (vm_compute; reflexivity).
  assert (session_field_well_formed request_hi_again = true) as Hsid
    by (vm_compute; reflexivity).
  split; [exact Hfp|]. split; [exact Hsid|].
  destruct (inlet_registers_stream toy_digest env_b request_hi_again filter_hi
              (toy_digest "hi") Hfp Hsid)
    as (self' & body' & cid & sid & key & Hin & Hcid & Hbody & Hkey & Hentry & Hother).
  exists self', body'. split; [exact Hin|].
  assert (inlet toy_digest env_b request_hi_again filter_hi
          = (with_streams filter_hi
               (<[KStr "S2" := new_stream env_b (JStr (uuid4 env_a))]>
                  (_active_streams filter_hi)),
             Ok (<["chat_id" := JStr (uuid4 env_a)]> request_hi_again))) as Heval
    by (vm_compute; reflexivity).
  rewrite Heval in Hin. injection Hin as <- <-.
  split; [vm_compute; reflexivity|]. apply Hother.
  assert (sid = JStr "S2") as -> by (vm_compute in Hbody; congruence).
  simpl in Hkey. injection Hkey as <-. discriminate.
Defined.

Lemma inlet_session_id_and_frame_witness :
  fingerprint toy_digest request_hi = Ok (toy_digest "hi") ∧
  session_field_well_formed request_hi = true ∧
  ∃ self' body',
    inlet toy_digest env_a request_hi __init__ = (self', Ok body') ∧
    body' !! "session_id" = Some (JStr "session-1700000000") ∧
    body' !! "messages" = request_hi !! "messages".
Proof.
  assert (fingerprint toy_digest request_hi = Ok (toy_digest "hi")) as Hfp
    by (vm_compute; reflexivity).
  assert (session_field_well_formed request_hi = true) as Hsid
    by (vm_compute; reflexivity).
  split; [exact Hfp|]. split; [exact Hsid|].
  destruct (inlet_session_id_and_frame toy_digest env_a request_hi __init__
              (toy_digest "hi") Hfp Hsid)
    as (self' & body' & Hin & _ & Hgenerated & Hframe).
  exists self', body'. split; [exact Hin|]. split.
  - rewrite Hgenerated; [|vm_compute; reflexivity]. vm_compute. reflexivity.
  - apply Hframe; discriminate.
Defined.

Lemma inlet_returned_body_is_stable_witness :
  fingerprint toy_digest request_hi = Ok (toy_digest "hi") ∧
  session_field_well_formed request_hi = true ∧
  ∃ self1 body1 self2,
    inlet toy_digest env_a request_hi __init__ = (self1, Ok body1) ∧
    inlet toy_digest env_b body1 (run toy_digest sample_calls self1) = (self2, Ok body1) ∧
    _conversation_store self2 = _conversation_store (run toy_digest sample_calls self1).
Proof.
  assert (fingerprint toy_digest request_hi = Ok (toy_digest "hi")) as Hfp
    by (vm_compute; reflexivity).
  assert (session_field_well_formed request_hi = true) as Hsid
    by (vm_compute; reflexivity).
  split; [exact Hfp|]. split; [exact Hsid|].
  exact (inlet_returned_body_is_stable toy_digest env_a env_b request_hi sample_calls
           __init__ (toy_digest "hi") Hfp Hsid).
Defined.

Lemma conversation_store_origin_witness :
  _conversation_store (run toy_digest history_two __init__) !! toy_digest "hello"
  = Some (uuid4 env_b) ∧
  ∃ env body,
    Inlet env body ∈ history_two ∧
    fingerprint toy_digest body = Ok (toy_digest "hello") ∧
    uuid4 env = uuid4 env_b.
Proof.
  assert (_conversation_store (run toy_digest history_two __init__) !! toy_digest "hello"
          = Some (uuid4 env_b)) as Hlookup by (vm_compute; reflexivity).
  split; [exact Hlookup|].
  exact (conversation_store_origin toy_digest history_two _ _ Hlookup).
Defined.

Lemma sessions_never_deleted_witness :
  is_Some (_active_streams filter_hi !! KStr "S1") ∧
  is_Some (_active_streams (run toy_digest sample_calls filter_hi) !! KStr "S1").
Proof.
  assert (is_Some (_active_streams filter_hi !! KStr "S1")) as Hkey
    by (vm_compute; eauto).
  split; [exact Hkey|].
  exact (sessions_never_deleted toy_digest sample_calls filter_hi _ Hkey).
Defined.

Lemma only_inlet_activates_witness :
  forallb (λ c, negb (is_inlet c)) history_closing = true ∧
  ∃ info',
    _active_streams (run toy_digest history_closing filter_hi) !! KStr "S1" = Some info' ∧
    chat_id info' = JStr (uuid4 env_a) ∧
    start_time info' = time_start env_a.
Proof.
  assert (forallb (λ c, negb (is_inlet c)) history_closing = true) as Hcalls
    by (vm_compute; reflexivity).
  split; [exact Hcalls|].
  pose proof (only_inlet_activates toy_digest history_closing filter_hi (KStr "S1") Hcalls)
    as Hkeep.
  assert (_active_streams filter_hi !! KStr "S1"
          = Some (new_stream env_a (JStr (uuid4 env_a)))) as Hbefore
    by (vm_compute; reflexivity).
  rewrite Hbefore in Hkeep.
  destruct (_active_streams (run toy_digest history_closing filter_hi) !! KStr "S1")
    as [info'|]; [|destruct Hkeep].
  exists info'. destruct Hkeep as (Hcid & Hstart & _). auto.
Defined.

Lemma handle_stop_posts_once_witness :
  _active_streams (run toy_digest sample_calls filter_hi) !! KStr "S1"
  = Some (stopped (time_stop backend_ok)
            (finished (6800000051 # 4) (new_stream env_a (JStr (uuid4 env_a))))) ∧
  (handle_stop backend_down "S1" (run toy_digest sample_calls filter_hi)).1.2
  = [ {| post_url := "http://host.docker.internal:8081/stop";
         post_json := {[ "session_id" := JStr "S1";
                         "chat_id" := JStr (uuid4 env_a) ]};
         post_timeout := 5 |} ].
Proof.
  assert (_active_streams (run toy_digest sample_calls filter_hi) !! KStr "S1"
          = Some (stopped (time_stop backend_ok)
                    (finished (6800000051 # 4) (new_stream env_a (JStr (uuid4 env_a))))))
    as Hinfo by (vm_compute; reflexivity).
  split; [exact Hinfo|].
  exact (handle_stop_posts_once toy_digest backend_down "S1" sample_calls filter_hi _ Hinfo).
Defined.

Lemma system_message_skipped : Forall skipped_message [system_message].
Proof.
  apply Forall_cons. split; [|apply Forall_nil_2].
  eexists. split; [reflexivity|]. vm_compute. reflexivity.
Defined.

Lemma _hash_user_messages_first_user_witness :
  Forall skipped_message [system_message] ∧
  _hash_user_messages toy_digest
    (JArr ([system_message]
           ++ JObj {[ "role" := JStr "user"; "content" := JStr "hi" ]}
           :: [JNull; user_message (JArr [])]))
  = Ok (toy_digest "hi").
Proof.
  split; [exact system_message_skipped|].
  apply (_hash_user_messages_first_user toy_digest);
    [exact system_message_skipped | vm_compute; reflexivity | vm_compute; reflexivity].
Defined.

Lemma _hash_user_messages_default_witness :
  Forall skipped_message [system_message] ∧
  _hash_user_messages toy_digest (JArr [system_message]) = Ok (toy_digest "") ∧
  _hash_user_messages toy_digest
    (JArr ([system_message] ++ JObj {[ "role" := JStr "user" ]} :: []))
  = _hash_user_messages toy_digest (JArr [system_message]).
Proof.
  split; [exact system_message_skipped|].
  apply (_hash_user_messages_default toy_digest);
    [exact system_message_skipped | vm_compute; reflexivity | left; vm_compute; reflexivity].
Defined.

Lemma generated_session_ids_collide_witness :
  py_int (time_session env_a) = py_int (time_session env_a_late) ∧
  ∃ self1 body1' self2 body2' sid cid2,
    inlet toy_digest env_a request_hi __init__ = (self1, Ok body1') ∧
    inlet toy_digest env_a_late request_hello self1 = (self2, Ok body2') ∧
    body1' !! "session_id" = Some (JStr sid) ∧
    body2' !! "session_id" = Some (JStr sid) ∧
    body2' !! "chat_id" = Some cid2 ∧
    _active_streams self2
    = <[KStr sid := new_stream env_a_late cid2]> (_active_streams __init__).
Proof.
  assert (py_int (time_session env_a) = py_int (time_session env_a_late)) as Hsecond
    by (vm_compute; reflexivity).
  split; [exact Hsecond|].
  apply (generated_session_ids_collide toy_digest env_a env_a_late request_hi
           request_hello __init__ (toy_digest "hi") (toy_digest "hello"));
    [vm_compute; reflexivity | vm_compute; reflexivity | vm_compute; reflexivity
    | vm_compute; reflexivity | exact Hsecond].
Defined.

Lemma inlet_raise_keeps_conversation_witness :
  session_field_well_formed request_list_session = false ∧
  inlet toy_digest env_a request_list_session __init__
  = ({| valves := valves __init__;
        _conversation_store := <[toy_digest "hello" := uuid4 env_a]> ∅;
        _active_streams := ∅ |},
     Raise TypeError).
Proof.
  assert (session_field_well_formed request_list_session = false) as Hsid
    by (vm_compute; reflexivity).
  split; [exact Hsid|].
  apply (inlet_raise_keeps_conversation toy_digest env_a request_list_session __init__
           (toy_digest "hello"));
    [vm_compute; reflexivity | exact Hsid | vm_compute; reflexivity
    | vm_compute; reflexivity].
Defined.

Lemma inlet_raise_on_messages_is_clean_witness :
  messages_field_well_formed request_null_messages = false ∧
  messages_field_well_formed request_null_then_hi = false ∧
  inlet toy_digest env_a request_null_messages filter_hi = (filter_hi, Raise TypeError) ∧
  inlet toy_digest env_a request_null_then_hi filter_hi = (filter_hi, Raise AttributeError).
Proof.
  assert (messages_field_well_formed request_null_messages = false) as Hnull
    by (vm_compute; reflexivity).
  assert (messages_field_well_formed request_null_then_hi = false) as Helem
    by (vm_compute; reflexivity).
  split; [exact Hnull|]. split; [exact Helem|]. split.
  - destruct (inlet_raise_on_messages_is_clean toy_digest env_a request_null_messages
                filter_hi Hnull) as (e & -> & He).
    vm_compute in He. by rewrite He.
  - destruct (inlet_raise_on_messages_is_clean toy_digest env_a request_null_then_hi
                filter_hi Helem) as (e & -> & He).
    vm_compute in He. by rewrite He.
Defined.


Lemma inlet_then_outlet_witness :
  fingerprint toy_digest request_hi_again = Ok (toy_digest "hi") ∧
  session_field_well_formed request_hi_again = true ∧
  ∃ self' body' self'',
    inlet toy_digest env_b request_hi_again filter_hi = (self', Ok body') ∧
    outlet (6800000151 # 4) {[ "session_id" := JStr "S2"; "stop_reason" := JStr "stop" ]} self'
    = (self'', Ok {[ "session_id" := JStr "S2"; "stop_reason" := JStr "stop" ]}) ∧
    _active_streams self'' !! KStr "S2"
    = Some (finished (6800000151 # 4) (new_stream env_b (JStr (uuid4 env_a)))).
Proof.
  assert (fingerprint toy_digest request_hi_again = Ok (toy_digest "hi")) as Hfp
    by (vm_compute; reflexivity).
  assert (session_field_well_formed request_hi_again = true) as Hwf
    by (vm_compute; reflexivity).
  split; [exact Hfp|]. split; [exact Hwf|].
  destruct (inlet_then_outlet toy_digest env_b request_hi_again filter_hi
              (toy_digest "hi") Hfp Hwf)
    as (self' & body' & cid & sid & key & Hin & Hcid & Hsid & Hkey & Hout).
  assert (inlet toy_digest env_b request_hi_again filter_hi
          = (with_streams filter_hi
               (<[KStr "S2" := new_stream env_b (JStr (uuid4 env_a))]>
                  (_active_streams filter_hi)),
             Ok (<["chat_id" := JStr (uuid4 env_a)]> request_hi_again))) as Heval
    by (vm_compute; reflexivity).
  rewrite Heval in Hin. injection Hin as <- <-.
  assert (cid = JStr (uuid4 env_a)) as ->
    by (rewrite lookup_insert_eq in Hcid; by injection Hcid).
  assert (sid = JStr "S2") as -> by (vm_compute in Hsid; congruence).
  simpl in Hkey. injection Hkey as <-.
  destruct (Hout (6800000151 # 4)
              {[ "session_id" := JStr "S2"; "stop_reason" := JStr "stop" ]})
    as (self'' & Houtlet & Hentry & _);
    [vm_compute; reflexivity | vm_compute; reflexivity |].
  eexists _, _, self''. split; [exact Heval|]. split; [exact Houtlet|]. exact Hentry.
Defined.

Lemma different_digests_get_own_ids_witness :
  toy_digest "hi" ≠ toy_digest "hello" ∧
  ∃ self1 body1' self2 body2',
    inlet toy_digest env_a request_hi __init__ = (self1, Ok body1') ∧
    inlet toy_digest env_b request_hello self1 = (self2, Ok body2') ∧
    body1' !! "chat_id" = Some (JStr (uuid4 env_a)) ∧
    body2' !! "chat_id" = Some (JStr (uuid4 env_b)) ∧
    _conversation_store self2
    = <[toy_digest "hello" := uuid4 env_b]> (<[toy_digest "hi" := uuid4 env_a]> ∅).
Proof.
  assert (toy_digest "hi" ≠ toy_digest "hello") as Hne by discriminate.
  split; [exact Hne|].
  apply (different_digests_get_own_ids toy_digest env_a env_b request_hi request_hello
           __init__ (toy_digest "hi") (toy_digest "hello"));
    [vm_compute; reflexivity | vm_compute; reflexivity | exact Hne
    | vm_compute; reflexivity | vm_compute; reflexivity | vm_compute; reflexivity
    | vm_compute; reflexivity | vm_compute; reflexivity | vm_compute; reflexivity].
Defined.

Lemma distinct_uuids_distinct_conversations_witness :
  NoDup (generated_uuids history_two) ∧
  _conversation_store (run toy_digest history_two __init__) !! toy_digest "hello"
  = Some (uuid4 env_b) ∧
  toy_digest "hello" = toy_digest "hello".
Proof.
  assert (NoDup (generated_uuids history_two)) as Hnodup.
  { vm_compute. apply NoDup_cons. split.
    - intros Hin. apply list_elem_of_singleton in Hin. discriminate.
    - apply NoDup_singleton. }
  assert (_conversation_store (run toy_digest history_two __init__) !! toy_digest "hello"
          = Some (uuid4 env_b)) as Hlookup by (vm_compute; reflexivity).
  split; [exact Hnodup|]. split; [exact Hlookup|].
  exact (distinct_uuids_distinct_conversations toy_digest history_two _ _ _
           Hnodup Hlookup Hlookup).
Defined.
